(** * Energy optimisation dashboard: telemetry generator and savings estimator

    A shallow embedding of the two computational pieces of
    [energy_optimize_Demo.py]:

    - the ROI calculator of the fourth tab of [main] (lines 289-336), called
      [estimate] below, and
    - [generate_resource_data] (lines 49-79), the simulated telemetry,

    and of what [main] does with them: the key metrics row (lines 151-165),
    the progress loop of the agent tab over [ai_agent_simulation]
    (lines 206-215) and the expanders of the suggestions tab over
    [get_optimization_suggestions] (lines 255-279).

    Number model.  Python [int] is [Z].  Python [float] is modelled by exact
    arithmetic: rationals [Q] in the estimator, which keeps it executable,
    and reals [R] in the generator, which needs [sin] and [PI].  Statements
    about order, sign and shown strings are made on that model.  Where the
    last bits matter, module [Rounding] gives the estimator with every float
    operation rounded: by any operator of relative error at most 2^-53, and
    by [round64], binary64's round-to-nearest-even on rationals, which
    reproduces the primitive doubles of module [Binary64] digit for digit
    ([RoundingFacts.binary64_agreement]). *)

From Stdlib Require Import Reals Lra.
From Stdlib Require Import ZArith QArith Qabs Qpower List String Ascii Bool.
From Stdlib Require Import Sorted.
From Stdlib Require Import Lia Lqa DecimalString DecimalPos DecimalZ.
From Stdlib Require Import Uint63 Floats.
Import ListNotations.

(** ** Python values, exceptions and the error monad *)

Module Py.

(** The dynamically typed values the ROI block can bind to [roi_months]:
    the conditional expression yields a float in one branch and the int
    literal [0] in the other. *)
Inductive value : Type :=
| PyInt (n : Z)
| PyFloat (x : Q)
| PyStr (s : string).

Inductive exn : Type :=
| ZeroDivisionError
| ValueError.

Inductive result (A : Type) : Type :=
| Ok (a : A)
| Raise (e : exn).

Arguments Ok {A} a.
Arguments Raise {A} e.

Definition ret {A : Type} (a : A) : result A := Ok a.

Definition bind {A B : Type} (c : result A) (k : A -> result B) : result B :=
  match c with
  | Ok a => k a
  | Raise e => Raise e
  end.

(** Python's [>] on numbers. *)
Definition gt (a b : Q) : bool := negb (Qle_bool a b).

(** Python's true division [a / b]: raises on a zero divisor. *)
Definition truediv (a b : Q) : result Q :=
  if Qeq_bool b 0 then Raise ZeroDivisionError else Ok (a / b).

(** [range(lo, hi)]. *)
Definition range (lo hi : Z) : list Z :=
  map (fun k => (lo + Z.of_nat k)%Z) (seq 0 (Z.to_nat (hi - lo))).

End Py.

Import Py.

Notation "x <- c ;; k" := (bind c (fun x => k))
  (at level 61, c at next level, right associativity).

(** ** Format specifications [.Nf] and [,.Nf] *)

Module Format.

(** Nearest integer, ties to the even neighbour. *)
Definition round_half_even (q : Q) : Z :=
  let n := Qnum q in
  let d := Zpos (Qden q) in
  let f := (n / d)%Z in
  match (2 * (n mod d) ?= d)%Z with
  | Lt => f
  | Gt => (f + 1)%Z
  | Eq => if Z.even f then f else (f + 1)%Z
  end.

Definition digits (n : Z) : list ascii :=
  list_ascii_of_string (NilZero.string_of_uint (N.to_uint (Z.to_N n))).

(** Walks the digits from the least significant one and puts a comma in
    front of every fourth; [k] counts the digits left in the current group. *)
Fixpoint group3 (rev_digits : list ascii) (k : nat) : list ascii :=
  match rev_digits with
  | [] => []
  | c :: rest =>
      match k with
      | O => ","%char :: c :: group3 rest 2
      | S k' => c :: group3 rest k'
      end
  end.

Definition thousands (ds : list ascii) : list ascii :=
  rev (group3 (rev ds) 3).

Definition zero_pad (width : nat) (ds : list ascii) : list ascii :=
  (repeat "0"%char (width - List.length ds) ++ ds)%list.

(** [format(x, '.<prec>f')], or [',.<prec>f'] when [grouping] is set. *)
Definition format_f (grouping : bool) (prec : nat) (x : Q) : string :=
  let scale := (10 ^ Z.of_nat prec)%Z in
  let m := round_half_even (Qabs x * inject_Z scale) in
  let int_part := digits (m / scale) in
  let frac_part := zero_pad prec (digits (m mod scale)) in
  string_of_list_ascii
    ((if Py.gt 0 x then ["-"%char] else [])
       ++ (if grouping then thousands int_part else int_part)
       ++ match prec with
          | O => []
          | S _ => "."%char :: frac_part
          end)%list.

(** The same on a dynamically typed value: ints are converted to float
    first, a string has no [f] presentation type. *)
Definition format_value (grouping : bool) (prec : nat) (v : value)
  : result string :=
  match v with
  | PyInt n => Ok (format_f grouping prec (inject_Z n))
  | PyFloat x => Ok (format_f grouping prec x)
  | PyStr _ => Raise ValueError
  end.

(** [str(n)] for an int. *)
Definition str_int (n : Z) : string := NilZero.string_of_int (Z.to_int n).

End Format.

(** ** The savings estimator (ROI calculator tab of [main]) *)

Record ROIResult : Type := mkROIResult {
  optimization_potential : Q;
  monthly_savings : Q;
  annual_savings : Q;
  implementation_cost : Z;
  roi_months : value;
  months : list Z;
  cumulative_savings : list Q;
  energy_saved : Q;
  carbon_reduced : Q;
  trees_equivalent : Q;
  (* the strings handed to [st.metric] *)
  shown_target_delta : string;
  shown_monthly_savings : string;
  shown_annual_savings : string;
  shown_roi_timeline : string;
  shown_energy_saved : string;
  shown_carbon_reduced : string;
  shown_trees_equivalent : string
}.

(** The three widgets: [number_input(value=50, min_value=1)],
    [number_input(value=15000, min_value=100)] and [slider(30, 90, 65)],
    all of them int-valued. *)
Definition widget_range (num_servers avg_monthly_cost current_efficiency : Z)
  : Prop :=
  (1 <= num_servers)%Z /\ (100 <= avg_monthly_cost)%Z
  /\ (30 <= current_efficiency <= 90)%Z.

Definition estimate (num_servers avg_monthly_cost current_efficiency : Z)
  : result ROIResult :=
  q <- truediv (inject_Z (85 - current_efficiency)) 85 ;;
  let optimization_potential := q * 100 in
  f <- truediv optimization_potential 100 ;;
  let monthly_savings := inject_Z avg_monthly_cost * f * 0.3 in
  let annual_savings := monthly_savings * 12 in
  let shown_target_delta :=
    ("+" ++ Format.str_int (85 - current_efficiency) ++ "%")%string in
  let shown_monthly_savings :=
    ("$" ++ Format.format_f true 2 monthly_savings)%string in
  let shown_annual_savings :=
    ("$" ++ Format.format_f true 2 annual_savings)%string in
  let implementation_cost := 25000%Z in
  roi_months <-
    (if Py.gt monthly_savings 0
     then r <- truediv (inject_Z implementation_cost) monthly_savings ;;
          ret (PyFloat r)
     else ret (PyInt 0)) ;;
  roi_text <- Format.format_value false 1 roi_months ;;
  let shown_roi_timeline := (roi_text ++ " months")%string in
  let months := Py.range 1 13 in
  let cumulative_savings :=
    map (fun i => monthly_savings * inject_Z i) months in
  let energy_saved := annual_savings * 0.8 in
  let shown_energy_saved :=
    (Format.format_f true 0 energy_saved ++ " kWh/year")%string in
  let carbon_reduced := energy_saved * 0.4 in
  let shown_carbon_reduced :=
    (Format.format_f true 0 carbon_reduced ++ " kg CO2/year")%string in
  t <- truediv carbon_reduced 21 ;;
  let trees_equivalent := t in
  let shown_trees_equivalent :=
    (Format.format_f false 0 trees_equivalent ++ " trees/year")%string in
  ret {| optimization_potential := optimization_potential;
         monthly_savings := monthly_savings;
         annual_savings := annual_savings;
         implementation_cost := implementation_cost;
         roi_months := roi_months;
         months := months;
         cumulative_savings := cumulative_savings;
         energy_saved := energy_saved;
         carbon_reduced := carbon_reduced;
         trees_equivalent := trees_equivalent;
         shown_target_delta := shown_target_delta;
         shown_monthly_savings := shown_monthly_savings;
         shown_annual_savings := shown_annual_savings;
         shown_roi_timeline := shown_roi_timeline;
         shown_energy_saved := shown_energy_saved;
         shown_carbon_reduced := shown_carbon_reduced;
         shown_trees_equivalent := shown_trees_equivalent |}.

(** *** Closed forms of the intermediate quantities *)

Definition potential_of (current_efficiency : Z) : Q :=
  inject_Z (85 - current_efficiency) / 85 * 100.

Definition savings_of (avg_monthly_cost current_efficiency : Z) : Q :=
  inject_Z avg_monthly_cost * (potential_of current_efficiency / 100) * 0.3.

Definition roi_of (avg_monthly_cost current_efficiency : Z) : value :=
  if Py.gt (savings_of avg_monthly_cost current_efficiency) 0
  then PyFloat (inject_Z 25000 / savings_of avg_monthly_cost current_efficiency)
  else PyInt 0.

(** ** The estimator's arithmetic on IEEE doubles *)

(** The same assignments with every operation rounded to binary64, as the
    interpreter performs them.  A decimal literal stands for the nearest
    double, which is what Python reads it as. *)
Module Binary64.

#[local] Set Warnings "-inexact-float".
Local Open Scope float_scope.

(** [float(n)] for an int of magnitude below 2^63. *)
Definition float_of_int (n : Z) : float :=
  if (n <? 0)%Z
  then - PrimFloat.of_uint63 (Uint63.of_Z (- n))
  else PrimFloat.of_uint63 (Uint63.of_Z n).

Definition optimization_potential64 (current_efficiency : Z) : float :=
  float_of_int (85 - current_efficiency) / 85 * 100.

Definition monthly_savings64 (avg_monthly_cost current_efficiency : Z)
  : float :=
  float_of_int avg_monthly_cost
  * (optimization_potential64 current_efficiency / 100) * 0.3.

Definition annual_savings64 (avg_monthly_cost current_efficiency : Z)
  : float :=
  monthly_savings64 avg_monthly_cost current_efficiency * 12.

Definition energy_saved64 (avg_monthly_cost current_efficiency : Z) : float :=
  annual_savings64 avg_monthly_cost current_efficiency * 0.8.

Definition carbon_reduced64 (avg_monthly_cost current_efficiency : Z)
  : float :=
  energy_saved64 avg_monthly_cost current_efficiency * 0.4.

Definition trees_equivalent64 (avg_monthly_cost current_efficiency : Z)
  : float :=
  carbon_reduced64 avg_monthly_cost current_efficiency / 21.

(** [|a - b| <= tol]. *)
Definition close (a b tol : float) : bool :=
  PrimFloat.leb (PrimFloat.abs (a - b)) tol.

End Binary64.

(** ** The estimator with rounded arithmetic *)

Module Rounding.

(** The unit roundoff of binary64. *)
Definition u : Q := 1 # (2 ^ 53).

(** The exponent [s] with [2^52 <= |q| * 2^s < 2^53], for [q] not zero. *)
Definition scale_of (q : Q) : Z :=
  let s0 := (52 - (Z.log2 (Z.abs (Qnum q)) - Z.log2 (Zpos (Qden q))))%Z in
  if Qle_bool (inject_Z (2 ^ 52)) (Qabs q * 2 ^ s0) then s0 else (s0 + 1)%Z.

(** Rounding to the nearest number with a 53-bit significand, ties to
    even: binary64 without its exponent limits. *)
Definition round64 (q : Q) : Q :=
  if Qeq_bool q 0 then 0
  else
    let s := scale_of q in
    Qred (inject_Z (Format.round_half_even (q * 2 ^ s)) / 2 ^ s).

(** The standard model of floating-point arithmetic: every operation
    returns its exact result with a relative error of at most [u]. *)
Definition StandardModel (rnd : Q -> Q) : Prop :=
  forall q : Q, Qabs (rnd q - q) <= u * Qabs q.

Fixpoint qpow (q : Q) (k : nat) : Q :=
  match k with
  | O => 1
  | S k' => q * qpow q k'
  end.

(** [x] is [v] times a factor that [k] roundings can produce. *)
Definition near (k : nat) (x v : Q) : Prop :=
  exists f : Q, x == v * f /\ qpow (1 - u) k <= f /\ f <= qpow (1 + u) k.

(** The ROI block with every float operation rounded by [rnd]: an int
    operand of a float operation is converted first, a decimal literal
    stands for its rounded value, and small integer constants are exact. *)
Definition estimate_with (rnd : Q -> Q)
  (num_servers avg_monthly_cost current_efficiency : Z) : result ROIResult :=
  q <- truediv (inject_Z (85 - current_efficiency)) 85 ;;
  let optimization_potential := rnd (rnd q * 100) in
  f <- truediv optimization_potential 100 ;;
  let monthly_savings :=
    rnd (rnd (rnd (inject_Z avg_monthly_cost) * rnd f) * rnd 0.3) in
  let annual_savings := rnd (monthly_savings * 12) in
  let shown_target_delta :=
    ("+" ++ Format.str_int (85 - current_efficiency) ++ "%")%string in
  let shown_monthly_savings :=
    ("$" ++ Format.format_f true 2 monthly_savings)%string in
  let shown_annual_savings :=
    ("$" ++ Format.format_f true 2 annual_savings)%string in
  let implementation_cost := 25000%Z in
  roi_months <-
    (if Py.gt monthly_savings 0
     then r <- truediv (inject_Z implementation_cost) monthly_savings ;;
          ret (PyFloat (rnd r))
     else ret (PyInt 0)) ;;
  roi_text <- Format.format_value false 1 roi_months ;;
  let shown_roi_timeline := (roi_text ++ " months")%string in
  let months := Py.range 1 13 in
  let cumulative_savings :=
    map (fun i => rnd (monthly_savings * inject_Z i)) months in
  let energy_saved := rnd (annual_savings * rnd 0.8) in
  let shown_energy_saved :=
    (Format.format_f true 0 energy_saved ++ " kWh/year")%string in
  let carbon_reduced := rnd (energy_saved * rnd 0.4) in
  let shown_carbon_reduced :=
    (Format.format_f true 0 carbon_reduced ++ " kg CO2/year")%string in
  t <- truediv carbon_reduced 21 ;;
  let trees_equivalent := rnd t in
  let shown_trees_equivalent :=
    (Format.format_f false 0 trees_equivalent ++ " trees/year")%string in
  ret {| optimization_potential := optimization_potential;
         monthly_savings := monthly_savings;
         annual_savings := annual_savings;
         implementation_cost := implementation_cost;
         roi_months := roi_months;
         months := months;
         cumulative_savings := cumulative_savings;
         energy_saved := energy_saved;
         carbon_reduced := carbon_reduced;
         trees_equivalent := trees_equivalent;
         shown_target_delta := shown_target_delta;
         shown_monthly_savings := shown_monthly_savings;
         shown_annual_savings := shown_annual_savings;
         shown_roi_timeline := shown_roi_timeline;
         shown_energy_saved := shown_energy_saved;
         shown_carbon_reduced := shown_carbon_reduced;
         shown_trees_equivalent := shown_trees_equivalent |}.

Definition potential_with (rnd : Q -> Q) (current_efficiency : Z) : Q :=
  rnd (rnd (inject_Z (85 - current_efficiency) / 85) * 100).

Definition savings_with (rnd : Q -> Q) (avg_monthly_cost current_efficiency : Z)
  : Q :=
  rnd (rnd (rnd (inject_Z avg_monthly_cost)
            * rnd (potential_with rnd current_efficiency / 100))
       * rnd 0.3).

(** The rational a finite double stands for. *)
Definition Q_of_float (f : float) : option Q :=
  match Prim2SF f with
  | S754_zero _ => Some 0
  | S754_finite s m e =>
      Some (Qred ((if s then -1 else 1) * inject_Z (Zpos m) * 2 ^ e))
  | _ => None
  end.

(** Do the six figures computed with [round64] equal, as rationals, the
    six primitive doubles of [Binary64] at these inputs? *)
Definition agrees_with_binary64 (avg_monthly_cost current_efficiency : Z)
  : bool :=
  match estimate_with round64 1 avg_monthly_cost current_efficiency with
  | Ok r =>
      match
        Q_of_float (Binary64.optimization_potential64 current_efficiency),
        Q_of_float
          (Binary64.monthly_savings64 avg_monthly_cost current_efficiency),
        Q_of_float
          (Binary64.annual_savings64 avg_monthly_cost current_efficiency),
        Q_of_float
          (Binary64.energy_saved64 avg_monthly_cost current_efficiency),
        Q_of_float
          (Binary64.carbon_reduced64 avg_monthly_cost current_efficiency),
        Q_of_float
          (Binary64.trees_equivalent64 avg_monthly_cost current_efficiency)
      with
      | Some p, Some m, Some a, Some en, Some c, Some t =>
          Qeq_bool p (optimization_potential r)
          && Qeq_bool m (monthly_savings r)
          && Qeq_bool a (annual_savings r)
          && Qeq_bool en (energy_saved r)
          && Qeq_bool c (carbon_reduced r)
          && Qeq_bool t (trees_equivalent r)
      | _, _, _, _, _, _ => false
      end
  | Raise _ => false
  end.

End Rounding.

(** ** The telemetry generator *)

Module Calendar.

(** A pandas [Timestamp] is a count of nanoseconds since 1970-01-01T00:00. *)
Definition Timestamp : Type := Z.

(** Days from the epoch to a date of the proleptic Gregorian calendar. *)
Definition days_from_civil (y m d : Z) : Z :=
  let y' := if (m <=? 2)%Z then (y - 1)%Z else y in
  let era := (y' / 400)%Z in
  let yoe := (y' - era * 400)%Z in
  let mp := if (2 <? m)%Z then (m - 3)%Z else (m + 9)%Z in
  let doy := ((153 * mp + 2) / 5 + d - 1)%Z in
  let doe := (yoe * 365 + yoe / 4 - yoe / 100 + doy)%Z in
  (era * 146097 + doe - 719468)%Z.

Definition ns_per_hour : Z := 3600 * 10 ^ 9.

(** Midnight of the given date. *)
Definition Timestamp_of_date (y m d : Z) : Timestamp :=
  (days_from_civil y m d * 24 * ns_per_hour)%Z.

(** [pd.date_range(start=..., periods=..., freq=...)] for a fixed step. *)
Definition date_range (start : Timestamp) (periods : nat) (freq : Z)
  : list Timestamp :=
  map (fun k => (start + Z.of_nat k * freq)%Z) (seq 0 periods).

(** Differences of neighbouring entries. *)
Fixpoint gaps (l : list Z) : list Z :=
  match l with
  | a :: (b :: _) as rest => (b - a)%Z :: gaps rest
  | _ => []
  end.

End Calendar.

Module Telemetry.

Import Calendar.
Local Open Scope R_scope.

(** One row of the data frame (one dict appended to [data]). *)
Record TelemetrySample : Type := mkSample {
  timestamp : Timestamp;
  cpu_usage : R;
  memory_usage : R;
  gpu_usage : R;
  cpu_waste : R;
  memory_waste : R;
  gpu_waste : R;
  energy_cost : R;
  carbon_footprint : R
}.

(** The builtins [min(a, b)] and [max(a, b)]: the first argument is kept
    unless the second is strictly smaller (larger). *)
Definition py_min (a b : R) : R := if Rlt_dec b a then b else a.
Definition py_max (a b : R) : R := if Rlt_dec a b then b else a.

Definition enumerate {A : Type} (l : list A) : list (nat * A) :=
  combine (seq 0 (List.length l)) l.

(** Computations that draw from the process-wide [random] module.  Its
    state is never seeded by the script ([np.random.seed(42)] seeds NumPy's
    generator, which the function does not use), so the standard normal
    deviates it will hand out are an arbitrary sequence; the state threaded
    through the code is the number of deviates already consumed. *)
Definition Rand (A : Type) : Type := nat -> A * nat.

Definition pure {A : Type} (a : A) : Rand A := fun k => (a, k).

Definition draw {A B : Type} (c : Rand A) (f : A -> Rand B) : Rand B :=
  fun k => let (a, k') := c k in f a k'.

Notation "x <~ c ;; f" := (draw c (fun x => f))
  (at level 61, c at next level, right associativity).

Section Generator.

Variable deviate : nat -> R.

(** [random.gauss(mu, sigma)] returns [mu + z * sigma] for the next
    standard normal deviate [z]. *)
Definition gauss (mu sigma : R) : Rand R :=
  fun k => (mu + deviate k * sigma, S k).

(** The body of the loop for index [i] and timestamp [hour]. *)
Definition row (i : nat) (hour : Timestamp) : Rand TelemetrySample :=
  let base_cpu := 45 + 20 * sin (2 * PI * INR i / 24) in
  let base_memory := 60 + 15 * sin (2 * PI * INR i / 24) in
  g <~ gauss 0 10 ;;
  let base_gpu := py_max 0 (30 + 40 * sin (2 * PI * INR i / 24) + g) in
  w_cpu <~ gauss 15 5 ;;
  let cpu_waste := py_max 0 w_cpu in
  w_memory <~ gauss 10 5 ;;
  let memory_waste := py_max 0 w_memory in
  w_gpu <~ gauss 20 8 ;;
  let gpu_waste := py_max 0 w_gpu in
  n_cpu <~ gauss 0 5 ;;
  n_memory <~ gauss 0 5 ;;
  n_energy <~ gauss 0 2 ;;
  n_carbon <~ gauss 0 1 ;;
  pure {| timestamp := hour;
          cpu_usage := py_min 95 (base_cpu + n_cpu);
          memory_usage := py_min 95 (base_memory + n_memory);
          gpu_usage := py_min 95 base_gpu;
          cpu_waste := cpu_waste;
          memory_waste := memory_waste;
          gpu_waste := gpu_waste;
          energy_cost := (base_cpu + base_memory + base_gpu) * 0.12 + n_energy;
          carbon_footprint :=
            (base_cpu + base_memory + base_gpu) * 0.05 + n_carbon |}.

(** [for i, hour in enumerate(hours): data.append(...)]. *)
Fixpoint for_rows (rows : list (nat * Timestamp)) (data : list TelemetrySample)
  : Rand (list TelemetrySample) :=
  match rows with
  | [] => pure data
  | (i, hour) :: rest => s <~ row i hour ;; for_rows rest (data ++ [s])
  end.

Definition hours : list Timestamp :=
  date_range (Timestamp_of_date 2025 1 1) 168 ns_per_hour.

Definition generate_resource_data : list TelemetrySample :=
  fst (for_rows (enumerate hours) [] 0%nat).

(** The rows the loop appends when it starts with [k] deviates consumed:
    every iteration consumes eight. *)
Fixpoint rows_from (rows : list (nat * Timestamp)) (k : nat)
  : list TelemetrySample :=
  match rows with
  | [] => []
  | (i, hour) :: rest => fst (row i hour k) :: rows_from rest (k + 8)
  end.

End Generator.

(** A sequence of deviates that is zero except for one draw six standard
    deviations below the mean: the draw that becomes the CPU noise of the
    row with index 18 (the daily minimum of the sine wave). *)
Definition spike (k : nat) : R := if Nat.eqb k 148 then -6 else 0.

End Telemetry.

(** ** The key metrics row of [main] *)

Module Dashboard.

Import Calendar Telemetry.
Local Open Scope R_scope.

(** [s.iloc[-n:]] for a positive [n]: the last [n] entries, or all of them
    when there are fewer. *)
Definition iloc_last {A : Type} (n : nat) (s : list A) : list A :=
  skipn (List.length s - n) s.

(** [Series.sum()]; the sum of an empty series is 0. *)
Definition series_sum (s : list R) : R := fold_right Rplus 0 s.

(** [Series.mean()]; the mean of an empty series is NaN, here [None]. *)
Definition series_mean (s : list R) : option R :=
  match s with
  | [] => None
  | _ :: _ => Some (series_sum s / INR (List.length s))
  end.

(** [a + b] for two series over the same index. *)
Definition series_add (a b : list R) : list R :=
  map (fun p => fst p + snd p) (combine a b).

Record KeyMetrics : Type := mkKeyMetrics {
  current_cost : R;
  avg_cpu : option R;
  total_waste : R;
  carbon_today : R
}.

Definition key_metrics (df : list TelemetrySample) : KeyMetrics :=
  {| current_cost := series_sum (iloc_last 24 (map energy_cost df));
     avg_cpu := series_mean (iloc_last 24 (map cpu_usage df));
     total_waste :=
       series_sum
         (series_add
            (series_add (iloc_last 24 (map cpu_waste df))
                        (iloc_last 24 (map memory_waste df)))
            (iloc_last 24 (map gpu_waste df)));
     carbon_today := series_sum (iloc_last 24 (map carbon_footprint df)) |}.

(** The rows behind the "Energy Cost Trend (Last 3 Days)" chart. *)
Definition energy_trend_rows (df : list TelemetrySample)
  : list TelemetrySample :=
  iloc_last 72 df.

(** The sine wave shared by the three base signals, and the timestamp of
    row [i]. *)
Definition wave (i : nat) : R := sin (2 * PI * INR i / 24).

Definition hour_at (i : nat) : Timestamp :=
  (Timestamp_of_date 2025 1 1 + Z.of_nat i * ns_per_hour)%Z.

End Dashboard.

(** ** The agent tab: progress loop *)

Module Agent.

Import Telemetry.

(** What the loop does to the page and to the clock, in order. *)
Inductive ui_event : Type :=
| StatusText (text : string)
| ProgressSet (value : Q)
| Slept (seconds : Q).

Definition ai_agent_simulation : list string :=
  ["🤖 Analyzing resource utilization patterns...";
   "📊 Detecting idle GPU resources (ID: gpu-cluster-a)";
   "⚡ Energy waste detected: 450kWh/month";
   "💡 Recommendation: Implement auto-hibernation schedule";
   "🔧 Calculating optimal scaling parameters...";
   "✅ Action approved: Scheduling hibernation for 22:00-06:00";
   "📈 Projected savings: $450/month, 35% energy reduction"]%string.

(** [time.sleep(seconds)]: a negative length is a [ValueError]. *)
Definition sleep (seconds : Q) : result ui_event :=
  if Py.gt 0 seconds then Raise ValueError else Ok (Slept seconds).

(** [for i, decision in enumerate(decisions): ...] with
    [len_decisions = len(decisions)]. *)
Fixpoint agent_loop (simulation_speed len_decisions : Z)
  (rows : list (nat * string)) : result (list ui_event) :=
  match rows with
  | [] => ret []
  | (i, decision) :: rest =>
      p <- truediv (inject_Z (Z.of_nat i + 1)) (inject_Z len_decisions) ;;
      d <- truediv 1 (inject_Z simulation_speed) ;;
      z <- sleep d ;;
      later <- agent_loop simulation_speed len_decisions rest ;;
      ret (StatusText decision :: ProgressSet p :: z :: later)
  end.

Definition run_agent_analysis (simulation_speed : Z) (decisions : list string)
  : result (list ui_event) :=
  agent_loop simulation_speed (Z.of_nat (List.length decisions))
    (enumerate decisions).

Definition progress_values (evs : list ui_event) : list Q :=
  flat_map (fun ev => match ev with ProgressSet p => [p] | _ => [] end) evs.



(** The three events of one iteration. *)
Definition step_events (simulation_speed len_decisions : Z)
  (row : nat * string) : list ui_event :=
  [StatusText (snd row);
   ProgressSet (inject_Z (Z.of_nat (fst row) + 1) / inject_Z len_decisions);
   Slept (1 / inject_Z simulation_speed)].

End Agent.

(** ** The suggestions tab *)

Module Suggestions.

Import Telemetry.
Local Open Scope string_scope.

Record Suggestion : Type := mkSuggestion {
  resource : string;
  issue : string;
  action : string;
  potential_savings : string;
  energy_reduction : string;
  confidence : Z;
  risk_level : string
}.

Definition get_optimization_suggestions : list Suggestion :=
  [ {| resource := "GPU Cluster A";
       issue := "Idle 73% of the time";
       action := "Hibernate during off-peak hours";
       potential_savings := "$450/month";
       energy_reduction := "35% less power consumption";
       confidence := 95;
       risk_level := "Low" |};
    {| resource := "CPU Pool B";
       issue := "Underutilized (avg 28%)";
       action := "Consolidate workloads";
       potential_savings := "$280/month";
       energy_reduction := "22% efficiency gain";
       confidence := 88;
       risk_level := "Medium" |};
    {| resource := "Memory Cache C";
       issue := "Over-provisioned by 40%";
       action := "Right-size allocation";
       potential_savings := "$320/month";
       energy_reduction := "18% memory optimization";
       confidence := 92;
       risk_level := "Low" |} ].

Record Button : Type := mkButton {
  label : string;
  key : string
}.

(** One expander of the tab. *)
Record Expander : Type := mkExpander {
  title : string;
  lines : list string;
  approve : Button;
  reject : Button
}.

Definition risk_color (s : Suggestion) : string :=
  if String.eqb (risk_level s) "Low" then "🟢"
  else if String.eqb (risk_level s) "Medium" then "🟡"
  else "🔴".

(** The body of [for i, suggestion in enumerate(suggestions)]. *)
Definition render_suggestion (i : nat) (suggestion : Suggestion) : Expander :=
  let n := Format.str_int (Z.of_nat i + 1) in
  {| title := "🎯 Optimization #" ++ n ++ ": " ++ resource suggestion;
     lines :=
       [ "**Issue:** " ++ issue suggestion;
         "**Recommended Action:** " ++ action suggestion;
         "**💰 Potential Savings:** " ++ potential_savings suggestion;
         "**⚡ Energy Impact:** " ++ energy_reduction suggestion;
         "**🎯 Confidence:** " ++ Format.str_int (confidence suggestion)
           ++ "%";
         "**" ++ risk_color suggestion ++ " Risk Level:** "
           ++ risk_level suggestion ];
     approve := {| label := "✅ Approve Action #" ++ n;
                   key := "approve_" ++ Format.str_int (Z.of_nat i) |};
     reject := {| label := "❌ Reject #" ++ n;
                  key := "reject_" ++ Format.str_int (Z.of_nat i) |} |}.

Definition render_suggestions (suggestions : list Suggestion)
  : list Expander :=
  map (fun row => render_suggestion (fst row) (snd row))
      (enumerate suggestions).

(** The keys of the buttons on the page, in order. *)
Definition widget_keys (page : list Expander) : list string :=
  flat_map (fun e => [key (approve e); key (reject e)]) page.

(** The key of the approve or of the reject button of row [i]. *)
Definition key_of (approving : bool) (i : nat) : string :=
  ((if approving then "approve_" else "reject_")
     ++ Format.str_int (Z.of_nat i))%string.

End Suggestions.

(** ** One run of the script *)

Module App.

Import Calendar Telemetry Dashboard Agent Suggestions Rounding.

(** What outlives a run: the state of the [random] module (the deviates it
    will hand out and how many were consumed) and the entry that
    [st.cache_data] keeps for [generate_resource_data]. *)
Record Session : Type := mkSession {
  deviates : nat -> R;
  drawn : nat;
  cached_frame : option (list TelemetrySample)
}.

(** The values of the widgets in a run. *)
Record Widgets : Type := mkWidgets {
  simulation_speed : Z;
  auto_optimize : bool;
  start_analysis : bool;
  num_servers : Z;
  avg_monthly_cost : Z;
  current_efficiency : Z
}.

(** What a run puts on the page. *)
Record Page : Type := mkPage {
  page_metrics : KeyMetrics;
  page_frame : list TelemetrySample;
  page_trend : list TelemetrySample;
  page_agent : option (list ui_event);
  page_suggestions : list Expander;
  page_roi : ROIResult
}.

(** [generate_resource_data()] behind [@st.cache_data]: the body runs, and
    draws from [random], only when the cache is empty. *)
Definition cached_generate (s : Session)
  : list TelemetrySample * Session :=
  match cached_frame s with
  | Some df => (df, s)
  | None =>
      let (df, k) := for_rows (deviates s) (enumerate hours) [] (drawn s) in
      (df, {| deviates := deviates s; drawn := k; cached_frame := Some df |})
  end.

(** [main()], with the float operations of the ROI tab rounded by [rnd]:
    the data frame is loaded, the key metrics are computed, the agent loop
    runs when its button was pressed, the suggestions are rendered and the
    ROI block is evaluated, in the order of the script.  An exception ends
    the run.  Static text, chart styling and the messages that follow a
    click on an approve or reject button are left out. *)
Definition main (rnd : Q -> Q) (w : Widgets) (s : Session)
  : result (Page * Session) :=
  let (df, s') := cached_generate s in
  let suggestions := get_optimization_suggestions in
  let metrics := key_metrics df in
  agent <-
    (if start_analysis w
     then evs <- run_agent_analysis (simulation_speed w) ai_agent_simulation ;;
          ret (Some evs)
     else ret None) ;;
  roi <- estimate_with rnd (num_servers w) (avg_monthly_cost w)
           (current_efficiency w) ;;
  ret ({| page_metrics := metrics;
          page_frame := df;
          page_trend := energy_trend_rows df;
          page_agent := agent;
          page_suggestions := render_suggestions suggestions;
          page_roi := roi |},
       s').

(** A fresh session whose [random] module will hand out [d]. *)
Definition fresh (d : nat -> R) : Session :=
  {| deviates := d; drawn := 0; cached_frame := None |}.

Definition default_widgets : Widgets :=
  {| simulation_speed := 5; auto_optimize := true; start_analysis := false;
     num_servers := 50; avg_monthly_cost := 15000;
     current_efficiency := 65 |}.

End App.

(** ** Basic facts about the Python layer *)

Lemma gt_true_iff (a b : Q) : Py.gt a b = true <-> b < a.
Proof.
  unfold Py.gt. rewrite negb_true_iff.
  split; intros H.
  - apply Qnot_le_lt. intros Hle.
    apply Qle_bool_iff in Hle. congruence.
  - destruct (Qle_bool a b) eqn:E; [|reflexivity].
    apply Qle_bool_iff in E. exfalso. apply (Qlt_not_le _ _ H E).
Qed.

Lemma gt_false_iff (a b : Q) : Py.gt a b = false <-> a <= b.
Proof.
  unfold Py.gt. rewrite negb_false_iff. apply Qle_bool_iff.
Qed.

Lemma truediv_nonzero (a b : Q) :
  Qeq_bool b 0 = false -> truediv a b = Ok (a / b).
Proof. intros H. unfold truediv. now rewrite H. Qed.

Lemma truediv_positive (a b : Q) : 0 < b -> truediv a b = Ok (a / b).
Proof.
  intros H. apply truediv_nonzero.
  destruct (Qeq_bool b 0) eqn:E; [|reflexivity].
  apply Qeq_bool_iff in E. rewrite E in H. discriminate H.
Qed.

Lemma bind_ok {A B : Type} (a : A) (k : A -> result B) :
  bind (Ok a) k = k a.
Proof. reflexivity. Qed.

(** ** The estimator never raises, and what it returns *)

Lemma estimate_fields (num_servers avg_monthly_cost current_efficiency : Z) :
  exists r : ROIResult,
    estimate num_servers avg_monthly_cost current_efficiency = Ok r
    /\ optimization_potential r = potential_of current_efficiency
    /\ monthly_savings r = savings_of avg_monthly_cost current_efficiency
    /\ annual_savings r = monthly_savings r * 12
    /\ implementation_cost r = 25000%Z
    /\ roi_months r = roi_of avg_monthly_cost current_efficiency
    /\ shown_roi_timeline r
       = (Format.format_f false 1
            match roi_months r with
            | PyFloat x => x
            | PyInt n => inject_Z n
            | PyStr _ => 0
            end ++ " months")%string
    /\ months r = Py.range 1 13
    /\ cumulative_savings r
       = map (fun i => monthly_savings r * inject_Z i) (months r)
    /\ energy_saved r = annual_savings r * 0.8
    /\ carbon_reduced r = energy_saved r * 0.4
    /\ trees_equivalent r = carbon_reduced r / 21.
Proof.
  unfold estimate.
  rewrite (truediv_nonzero _ 85) by reflexivity. rewrite bind_ok.
  rewrite (truediv_nonzero _ 100) by reflexivity. rewrite bind_ok.
  rewrite (truediv_nonzero _ 21) by reflexivity.
  fold (potential_of current_efficiency).
  fold (savings_of avg_monthly_cost current_efficiency).
  unfold roi_of.
  destruct (Py.gt (savings_of avg_monthly_cost current_efficiency) 0) eqn:G.
  - apply gt_true_iff in G.
    rewrite (truediv_positive _ _ G).
    cbn [bind ret Format.format_value].
    eexists; split; [reflexivity|].
    cbn [optimization_potential monthly_savings annual_savings roi_months
         implementation_cost months cumulative_savings energy_saved
         carbon_reduced trees_equivalent shown_roi_timeline].
    repeat split; reflexivity.
  - cbn [bind ret Format.format_value].
    eexists; split; [reflexivity|].
    cbn [optimization_potential monthly_savings annual_savings roi_months
         implementation_cost months cumulative_savings energy_saved
         carbon_reduced trees_equivalent shown_roi_timeline].
    repeat split; reflexivity.
Qed.

(** No input makes the block raise: the only division by a computed value
    sits behind the guard. *)
Lemma estimate_returns (num_servers avg_monthly_cost current_efficiency : Z) :
  exists r : ROIResult,
    estimate num_servers avg_monthly_cost current_efficiency = Ok r.
Proof.
  destruct (estimate_fields num_servers avg_monthly_cost current_efficiency)
    as (r & Hr & _).
  now exists r.
Qed.

(** What the widgets let through satisfies the preconditions used below. *)
Lemma widget_range_valid (num_servers avg_monthly_cost current_efficiency : Z) :
  widget_range num_servers avg_monthly_cost current_efficiency ->
  (0 < num_servers)%Z /\ (0 < avg_monthly_cost)%Z
  /\ (30 <= current_efficiency <= 90)%Z.
Proof. unfold widget_range. lia. Qed.

(** Unpacks [estimate_fields] at the given inputs. *)
Ltac estimate_at x y e r :=
  let Hrun := fresh "Hrun" in
  let Hpot := fresh "Hpot" in
  let Hms := fresh "Hms" in
  let Han := fresh "Han" in
  let Hic := fresh "Hic" in
  let Hroi := fresh "Hroi" in
  let Hshown := fresh "Hshown" in
  let Hmonths := fresh "Hmonths" in
  let Hcum := fresh "Hcum" in
  let Hen := fresh "Hen" in
  let Hca := fresh "Hca" in
  let Htr := fresh "Htr" in
  destruct (estimate_fields x y e)
    as (r & Hrun & Hpot & Hms & Han & Hic & Hroi & Hshown & Hmonths & Hcum
        & Hen & Hca & Htr).

Lemma savings_of_linear (avg_monthly_cost current_efficiency : Z) :
  savings_of avg_monthly_cost current_efficiency
  == inject_Z (avg_monthly_cost * (85 - current_efficiency)) * (3 # 850).
Proof.
  unfold savings_of, potential_of. rewrite inject_Z_mult. field.
Qed.

Lemma savings_of_cap (avg_monthly_cost : Z) : savings_of avg_monthly_cost 85 == 0.
Proof. rewrite savings_of_linear. rewrite Z.sub_diag, Z.mul_0_r. reflexivity. Qed.

Lemma savings_of_antitone (y e1 e2 : Z) :
  (0 <= y)%Z -> (e1 <= e2)%Z -> savings_of y e2 <= savings_of y e1.
Proof.
  intros Hy He. rewrite !savings_of_linear.
  apply Qmult_le_compat_r; [|discriminate].
  rewrite <- Zle_Qle. nia.
Qed.

Lemma savings_of_strict (y e1 e2 : Z) :
  (0 < y)%Z -> (e1 < e2)%Z -> savings_of y e2 < savings_of y e1.
Proof.
  intros Hy He. rewrite !savings_of_linear.
  apply Qmult_lt_compat_r; [reflexivity|].
  rewrite <- Zlt_Qlt. nia.
Qed.

Lemma savings_of_negative (y e : Z) :
  (0 < y)%Z -> (85 < e)%Z -> savings_of y e < 0.
Proof.
  intros Hy He. rewrite <- (savings_of_cap y). now apply savings_of_strict.
Qed.

Lemma roi_of_nonpositive (y e : Z) : savings_of y e <= 0 -> roi_of y e = PyInt 0.
Proof.
  intros H. unfold roi_of. apply gt_false_iff in H. now rewrite H.
Qed.

(** ** Properties of the savings estimator *)

(** C2, as the code has it.  At the cap (efficiency 85), with a positive
    server count and a positive monthly cost, the estimator returns without
    raising, [monthly_savings] is zero, the guard [monthly_savings > 0] fails,
    no division is attempted and [roi_months] is the int [0], which the
    metric shows as ["0.0 months"]. *)
Theorem estimate_at_cap (x y : Z) :
  (0 < x)%Z -> (0 < y)%Z ->
  exists r : ROIResult,
    estimate x y 85 = Ok r
    /\ monthly_savings r == 0
    /\ roi_months r = PyInt 0
    /\ shown_roi_timeline r = "0.0 months"%string.
Proof.
  intros _ _. estimate_at x y 85%Z r.
  assert (Hzero : savings_of y 85 <= 0).
  { rewrite savings_of_cap. apply Qle_refl. }
  exists r. split; [exact Hrun|]. split; [|split].
  - rewrite Hms. apply savings_of_cap.
  - rewrite Hroi. now apply roi_of_nonpositive.
  - rewrite Hshown, Hroi, (roi_of_nonpositive _ _ Hzero). reflexivity.
Qed.

Lemma estimate_at_cap_witness :
  exists r : ROIResult,
    estimate 50 15000 85 = Ok r
    /\ monthly_savings r == 0
    /\ roi_months r = PyInt 0
    /\ shown_roi_timeline r = "0.0 months"%string.
Proof. apply (estimate_at_cap 50 15000); reflexivity. Defined.

(** C2, as the specification words it, fails: at the default server count
    and cost and efficiency 85 the value bound to [roi_months] is the number
    [0], not the string ["N/A"], and the metric shows ["0.0 months"]. *)
Lemma estimate_at_cap_not_NA :
  exists r : ROIResult,
    estimate 50 15000 85 = Ok r
    /\ roi_months r = PyInt 0
    /\ roi_months r <> PyStr "N/A"
    /\ shown_roi_timeline r <> "N/A"%string
    /\ shown_roi_timeline r <> "N/A months"%string.
Proof.
  eexists. split; [vm_compute; reflexivity|].
  cbn [roi_months shown_roi_timeline].
  repeat split; discriminate.
Qed.

(** C3.  At the default inputs (50 servers, $15000 a month, efficiency 65)
    the potential is (85-65)/85*100 = 400/17, within half a cent of 23.53;
    the monthly savings are 15000 * (potential/100) * 0.30 = 18000/17, within
    half a cent of 1058.82 and shown as ["$1,058.82"]; the annual savings are
    twelve times that, within half a cent of 12705.88 and shown as
    ["$12,705.88"]. *)
Theorem estimate_default_inputs :
  exists r : ROIResult,
    estimate 50 15000 65 = Ok r
    /\ optimization_potential r == (85 - 65) / 85 * 100
    /\ optimization_potential r == 400 # 17
    /\ Qabs (optimization_potential r - 23.53) <= 0.005
    /\ Format.format_f false 2 (optimization_potential r) = "23.53"%string
    /\ monthly_savings r == 15000 * (optimization_potential r / 100) * 0.30
    /\ monthly_savings r == 18000 # 17
    /\ Qabs (monthly_savings r - 1058.82) <= 0.005
    /\ shown_monthly_savings r = "$1,058.82"%string
    /\ annual_savings r == monthly_savings r * 12
    /\ annual_savings r == 216000 # 17
    /\ Qabs (annual_savings r - 12705.88) <= 0.005
    /\ shown_annual_savings r = "$12,705.88"%string.
Proof.
  eexists. split; [vm_compute; reflexivity|].
  cbn [optimization_potential monthly_savings annual_savings
       shown_monthly_savings shown_annual_savings].
  repeat split; vm_compute; congruence.
Qed.

(** C5.  With the server count and a positive monthly cost fixed, and
    efficiencies e1 < e2 both in [30, 90], the monthly savings at e1 are at
    least the monthly savings at e2. *)
Theorem estimate_monotone (x y e1 e2 : Z) :
  (0 < y)%Z -> (30 <= e1)%Z -> (e1 < e2)%Z -> (e2 <= 90)%Z ->
  exists r1 r2 : ROIResult,
    estimate x y e1 = Ok r1
    /\ estimate x y e2 = Ok r2
    /\ monthly_savings r2 <= monthly_savings r1.
Proof.
  intros Hy _ He _.
  estimate_at x y e1 r1. estimate_at x y e2 r2.
  exists r1, r2. split; [assumption|]. split; [assumption|].
  rewrite Hms, Hms0. apply savings_of_antitone; lia.
Qed.

Lemma estimate_monotone_witness :
  exists r1 r2 : ROIResult,
    estimate 50 15000 40 = Ok r1
    /\ estimate 50 15000 65 = Ok r2
    /\ monthly_savings r2 <= monthly_savings r1.
Proof. apply (estimate_monotone 50 15000 40 65); lia. Defined.

(** C8.  For every valid input the cumulative-savings series has exactly
    twelve entries, one per month 1..12 of the x axis, and the entry for
    month m (list index m-1) is monthly_savings * m. *)
Theorem estimate_cumulative (x y e : Z) :
  (0 < x)%Z -> (0 < y)%Z -> (30 <= e <= 90)%Z ->
  exists r : ROIResult,
    estimate x y e = Ok r
    /\ List.length (cumulative_savings r) = 12%nat
    /\ months r = [1; 2; 3; 4; 5; 6; 7; 8; 9; 10; 11; 12]%Z
    /\ forall m : Z, (1 <= m <= 12)%Z ->
         nth_error (cumulative_savings r) (Z.to_nat (m - 1))
         = Some (monthly_savings r * inject_Z m).
Proof.
  intros _ _ _. estimate_at x y e r.
  exists r. split; [exact Hrun|].
  rewrite Hcum, Hmonths.
  change (Py.range 1 13) with [1; 2; 3; 4; 5; 6; 7; 8; 9; 10; 11; 12]%Z.
  repeat split.
  intros m Hm.
  assert (Hcases : (m = 1 \/ m = 2 \/ m = 3 \/ m = 4 \/ m = 5 \/ m = 6
                    \/ m = 7 \/ m = 8 \/ m = 9 \/ m = 10 \/ m = 11
                    \/ m = 12)%Z) by lia.
  repeat (destruct Hcases as [-> | Hcases]; [reflexivity|]).
  subst m. reflexivity.
Qed.

Lemma estimate_cumulative_witness :
  exists r : ROIResult,
    estimate 50 15000 65 = Ok r
    /\ List.length (cumulative_savings r) = 12%nat
    /\ months r = [1; 2; 3; 4; 5; 6; 7; 8; 9; 10; 11; 12]%Z
    /\ forall m : Z, (1 <= m <= 12)%Z ->
         nth_error (cumulative_savings r) (Z.to_nat (m - 1))
         = Some (monthly_savings r * inject_Z m).
Proof. apply (estimate_cumulative 50 15000 65); lia. Defined.

(** C9.  The server count is never read: two calls that agree on monthly
    cost and efficiency both return, with one and the same record (all the
    computed figures, the cumulative series and the shown strings), whatever
    the two server counts are. *)
Theorem estimate_ignores_servers (x1 x2 y e : Z) :
  exists r : ROIResult,
    estimate x1 y e = Ok r /\ estimate x2 y e = Ok r.
Proof.
  destruct (estimate_returns x1 y e) as (r & Hr).
  exists r. split; [exact Hr|].
  (* [num_servers] does not occur in the body of [estimate] *)
  unfold estimate in *. exact Hr.
Qed.

(** C10.  For an efficiency above 85 and at most 90, with a positive server
    count and a positive monthly cost, the monthly and the annual savings are
    strictly negative and [roi_months] is the int [0], the value also
    returned at efficiency 85 where the savings are zero. *)
Theorem estimate_above_cap (x y e : Z) :
  (0 < x)%Z -> (0 < y)%Z -> (85 < e <= 90)%Z ->
  exists r r0 : ROIResult,
    estimate x y e = Ok r
    /\ estimate x y 85 = Ok r0
    /\ monthly_savings r < 0
    /\ annual_savings r < 0
    /\ roi_months r = PyInt 0
    /\ roi_months r = roi_months r0.
Proof.
  intros _ Hy [He _].
  estimate_at x y e r. estimate_at x y 85%Z r0.
  pose proof (savings_of_negative y e Hy He) as Hneg.
  assert (Hzero : savings_of y 85 <= 0).
  { rewrite savings_of_cap. apply Qle_refl. }
  exists r, r0. split; [assumption|]. split; [assumption|].
  assert (Hr : roi_months r = PyInt 0).
  { rewrite Hroi. apply roi_of_nonpositive. now apply Qlt_le_weak. }
  repeat split.
  - now rewrite Hms.
  - rewrite Han, Hms. lra.
  - exact Hr.
  - rewrite Hr, Hroi0. symmetry. now apply roi_of_nonpositive.
Qed.

Lemma estimate_above_cap_witness :
  exists r r0 : ROIResult,
    estimate 50 15000 90 = Ok r
    /\ estimate 50 15000 85 = Ok r0
    /\ monthly_savings r < 0
    /\ annual_savings r < 0
    /\ roi_months r = PyInt 0
    /\ roi_months r = roi_months r0.
Proof. apply (estimate_above_cap 50 15000 90); lia. Defined.

(** ** Cross-check on IEEE doubles *)

Module Binary64Facts.

Import Binary64.
#[local] Set Warnings "-inexact-float".
Local Open Scope float_scope.

(** The default inputs on doubles: the three figures agree with the exact
    ones to better than half a cent. *)
Example default_inputs_binary64 :
  optimization_potential64 65 = 23.52941176470588
  /\ monthly_savings64 15000 65 = 1058.8235294117646
  /\ annual_savings64 15000 65 = 12705.882352941175
  /\ close (optimization_potential64 65) 23.53 0.005 = true
  /\ close (monthly_savings64 15000 65) 1058.82 0.005 = true
  /\ close (annual_savings64 15000 65) 12705.88 0.005 = true.
Proof. repeat split; vm_compute; reflexivity. Qed.

(** At the cap the savings are the double zero, so the guard
    [monthly_savings > 0] fails on doubles too. *)
Example cap_binary64 :
  monthly_savings64 15000 85 = 0
  /\ PrimFloat.ltb 0 (monthly_savings64 15000 85) = false.
Proof. split; vm_compute; reflexivity. Qed.


End Binary64Facts.

(** ** The generator's loop *)

Module TelemetryFacts.

Import Calendar Telemetry.
Import Lra.
Local Open Scope R_scope.

Lemma py_min_le_l (a b : R) : py_min a b <= a.
Proof. unfold py_min. destruct (Rlt_dec b a); lra. Qed.

Lemma py_min_ge (a b c : R) : c <= a -> c <= b -> c <= py_min a b.
Proof. unfold py_min. destruct (Rlt_dec b a); lra. Qed.

Lemma py_min_below (a b : R) : b < a -> py_min a b = b.
Proof. unfold py_min. destruct (Rlt_dec b a); [reflexivity | lra]. Qed.

Lemma py_max_ge_l (a b : R) : a <= py_max a b.
Proof. unfold py_max. destruct (Rlt_dec a b); lra. Qed.

Section Loop.

Variable deviate : nat -> R.

Lemma row_consumes (i : nat) (hour : Timestamp) (k : nat) :
  snd (row deviate i hour k) = (k + 8)%nat.
Proof. unfold row, draw, gauss, pure. simpl. lia. Qed.

Lemma for_rows_spec (rows : list (nat * Timestamp)) :
  forall (data : list TelemetrySample) (k : nat),
    for_rows deviate rows data k
    = ((data ++ rows_from deviate rows k)%list,
       (k + 8 * List.length rows)%nat).
Proof.
  induction rows as [|[i hour] rest IH]; intros data k.
  - cbn [for_rows rows_from List.length]. unfold pure.
    now rewrite app_nil_r, Nat.mul_0_r, Nat.add_0_r.
  - cbn [for_rows rows_from]. unfold draw at 1.
    destruct (row deviate i hour k) as [s k'] eqn:E.
    assert (k' = (k + 8)%nat) as ->.
    { rewrite <- (row_consumes i hour k). now rewrite E. }
    rewrite IH. cbn [fst List.length]. rewrite <- app_assoc.
    f_equal. lia.
Qed.

Lemma generate_unfold :
  generate_resource_data deviate = rows_from deviate (enumerate hours) 0.
Proof. unfold generate_resource_data. now rewrite for_rows_spec. Qed.

Lemma rows_from_length (rows : list (nat * Timestamp)) :
  forall k, List.length (rows_from deviate rows k) = List.length rows.
Proof.
  induction rows as [|[i hour] rest IH]; intros k; simpl; [|rewrite IH];
    reflexivity.
Qed.

Lemma rows_from_timestamps (rows : list (nat * Timestamp)) :
  forall k, map timestamp (rows_from deviate rows k) = map snd rows.
Proof.
  induction rows as [|[i hour] rest IH]; intros k; [reflexivity|].
  cbn [rows_from map snd]. now rewrite IH.
Qed.

Lemma rows_from_nth (rows : list (nat * Timestamp)) :
  forall (k n i : nat) (hour : Timestamp),
    nth_error rows n = Some (i, hour) ->
    nth_error (rows_from deviate rows k) n
    = Some (fst (row deviate i hour (k + 8 * n)%nat)).
Proof.
  induction rows as [|[j h] rest IH]; intros k n i hour Hn.
  - destruct n; discriminate.
  - destruct n as [|n].
    + injection Hn as -> ->.
      replace (k + 8 * 0)%nat with k by lia. reflexivity.
    + replace (k + 8 * S n)%nat with (k + 8 + 8 * n)%nat by lia.
      cbn [rows_from nth_error]. exact (IH (k + 8)%nat n i hour Hn).
Qed.

Lemma rows_from_Forall (P : TelemetrySample -> Prop) :
  (forall i hour k, P (fst (row deviate i hour k))) ->
  forall rows k, Forall P (rows_from deviate rows k).
Proof.
  intros HP rows. induction rows as [|[i hour] rest IH]; intros k.
  - constructor.
  - cbn [rows_from]. constructor; [apply HP | apply IH].
Qed.

(** What one iteration stores in the three usage fields. *)
Lemma row_usage (i : nat) (hour : Timestamp) (k : nat) :
  let wave := sin (2 * PI * INR i / 24) in
  let s := fst (row deviate i hour k) in
  cpu_usage s = py_min 95 (45 + 20 * wave + (0 + deviate (k + 4) * 5))
  /\ memory_usage s = py_min 95 (60 + 15 * wave + (0 + deviate (k + 5) * 5))
  /\ gpu_usage s
     = py_min 95 (py_max 0 (30 + 40 * wave + (0 + deviate k * 10))).
Proof.
  unfold row, draw, gauss, pure. cbn.
  replace (S (S (S (S k)))) with (k + 4)%nat by lia.
  replace (S (k + 4)) with (k + 5)%nat by lia.
  repeat split; reflexivity.
Qed.

End Loop.

(** ** Properties of the generated data frame *)

Lemma enumerate_hours_snd : map snd (enumerate hours) = hours.
Proof. vm_compute. reflexivity. Qed.

Lemma date_range_sorted (start : Timestamp) (freq : Z) (periods : nat) :
  (0 < freq)%Z -> StronglySorted Z.lt (date_range start periods freq).
Proof.
  intros Hfreq. unfold date_range. generalize 0%nat as a.
  induction periods as [|n IH]; intros a; cbn [seq map].
  - constructor.
  - constructor; [apply IH|].
    apply Forall_forall. intros t Ht.
    apply in_map_iff in Ht. destruct Ht as (k & <- & Hk).
    apply in_seq in Hk. nia.
Qed.

Lemma date_range_gaps (start : Timestamp) (freq : Z) (periods : nat) :
  gaps (date_range start periods freq) = repeat freq (Nat.pred periods).
Proof.
  unfold date_range. generalize 0%nat as a.
  induction periods as [|n IH]; intros a; [reflexivity|].
  destruct n as [|n]; [reflexivity|].
  specialize (IH (S a)). cbn [seq map gaps Nat.pred repeat] in *.
  rewrite IH. f_equal. lia.
Qed.

(** C6.  Whatever the random module hands out, the data frame has exactly
    168 rows; their timestamps are the 168 instants that start at midnight of
    2025-01-01 (day 20089 of the epoch) and advance by one hour, so
    neighbouring rows are exactly one hour apart and the column is strictly
    increasing. *)
Theorem generate_timestamps (deviate : nat -> R) :
  List.length (generate_resource_data deviate) = 168%nat
  /\ map timestamp (generate_resource_data deviate)
     = map (fun k => (Timestamp_of_date 2025 1 1
                      + Z.of_nat k * ns_per_hour)%Z) (seq 0 168)
  /\ hd_error (map timestamp (generate_resource_data deviate))
     = Some (Timestamp_of_date 2025 1 1)
  /\ Timestamp_of_date 2025 1 1 = (20089 * 86400 * 10 ^ 9)%Z
  /\ gaps (map timestamp (generate_resource_data deviate))
     = repeat ns_per_hour 167
  /\ StronglySorted Z.lt (map timestamp (generate_resource_data deviate)).
Proof.
  rewrite generate_unfold, rows_from_length, rows_from_timestamps.
  rewrite enumerate_hours_snd. unfold hours.
  split; [vm_compute; reflexivity|].
  split; [reflexivity|].
  split; [vm_compute; reflexivity|].
  split; [vm_compute; reflexivity|].
  split; [apply (date_range_gaps _ _ 168)|].
  apply date_range_sorted. reflexivity.
Qed.

Lemma wave_bound (i : nat) : -1 <= sin (2 * PI * INR i / 24) <= 1.
Proof. apply SIN_bound. Qed.

(** C1.  The code breaks the claim for cpu_usage, which is clamped from
    above only.  Let the CPU noise of row 18, where the sine wave is at its
    minimum and base_cpu is 25, be six standard deviations below the mean
    (and every other deviate be zero): the stored cpu_usage is
    min(95, 25 - 30) = -5, outside [0, 95]. *)
Lemma cpu_usage_can_be_negative :
  exists s : TelemetrySample,
    nth_error (generate_resource_data spike) 18 = Some s
    /\ cpu_usage s = -5
    /\ ~ (0 <= cpu_usage s <= 95).
Proof.
  assert (H18 : nth_error (enumerate hours) 18
                = Some (18%nat, (Timestamp_of_date 2025 1 1
                                 + 18 * ns_per_hour)%Z))
    by (vm_compute; reflexivity).
  pose proof (rows_from_nth spike _ 0 _ _ _ H18) as Hrow.
  rewrite <- generate_unfold in Hrow.
  eexists. split; [exact Hrow|].
  destruct (row_usage spike 18 (Timestamp_of_date 2025 1 1
                                 + 18 * ns_per_hour)%Z (0 + 8 * 18)%nat)
    as (Hcpu & _ & _).
  cbv zeta in Hcpu.
  assert (Hval : cpu_usage
                   (fst (row spike 18 (Timestamp_of_date 2025 1 1
                                       + 18 * ns_per_hour)%Z (0 + 8 * 18)%nat))
                 = -5).
  { rewrite Hcpu.
    replace (2 * PI * INR 18 / 24) with (3 * (PI / 2)) by (simpl; lra).
    rewrite sin_3PI2.
    change (spike (0 + 8 * 18 + 4)%nat) with (-6).
    rewrite py_min_below; lra. }
  split; [exact Hval|]. rewrite Hval. lra.
Qed.

End TelemetryFacts.

(** ** More about the savings estimator *)

Lemma range_1_13_nth (A : Type) (f : Z -> A) (m : Z) :
  (1 <= m <= 12)%Z ->
  nth_error (map f (Py.range 1 13)) (Z.to_nat (m - 1)) = Some (f m).
Proof.
  intros Hm.
  assert (Hcases : (m = 1 \/ m = 2 \/ m = 3 \/ m = 4 \/ m = 5 \/ m = 6
                    \/ m = 7 \/ m = 8 \/ m = 9 \/ m = 10 \/ m = 11
                    \/ m = 12)%Z) by lia.
  repeat (destruct Hcases as [-> | Hcases]; [reflexivity|]).
  subst m. reflexivity.
Qed.

Lemma savings_of_positive (y e : Z) :
  (0 < y)%Z -> (e < 85)%Z -> 0 < savings_of y e.
Proof.
  intros Hy He. rewrite <- (savings_of_cap y). now apply savings_of_strict.
Qed.

Lemma roi_of_positive (y e : Z) :
  0 < savings_of y e -> roi_of y e = PyFloat (inject_Z 25000 / savings_of y e).
Proof.
  intros H. unfold roi_of. apply gt_true_iff in H. now rewrite H.
Qed.

(** X2.  The chart agrees with the ROI metric: below the cap, the bar of
    month m reaches the dashed break-even line (implementation_cost) exactly
    when m is at least [roi_months]. *)
Theorem chart_reaches_break_even (x y e m : Z) :
  (0 < y)%Z -> (e < 85)%Z -> (1 <= m <= 12)%Z ->
  exists (r : ROIResult) (q c : Q),
    estimate x y e = Ok r
    /\ roi_months r = PyFloat q
    /\ nth_error (cumulative_savings r) (Z.to_nat (m - 1)) = Some c
    /\ (inject_Z (implementation_cost r) <= c <-> q <= inject_Z m).
Proof.
  intros Hy He Hm. estimate_at x y e r.
  pose proof (savings_of_positive y e Hy He) as Hpos.
  exists r, (inject_Z 25000 / savings_of y e), (monthly_savings r * inject_Z m).
  split; [exact Hrun|]. split; [|split].
  - rewrite Hroi. now apply roi_of_positive.
  - rewrite Hcum, Hmonths. now apply range_1_13_nth.
  - rewrite Hms, Hic. split; intros H.
    + apply Qle_shift_div_r; [exact Hpos|]. now rewrite Qmult_comm.
    + apply (Qmult_le_r _ _ _ Hpos) in H.
      rewrite (Qmult_comm (savings_of y e)).
      assert (Hne : ~ savings_of y e == 0).
      { intros H0. rewrite H0 in Hpos. discriminate Hpos. }
      setoid_replace (inject_Z 25000)
        with (inject_Z 25000 / savings_of y e * savings_of y e)
        by (field; exact Hne).
      exact H.
Qed.

Lemma chart_reaches_break_even_witness :
  exists (r : ROIResult) (q c : Q),
    estimate 50 15000 65 = Ok r
    /\ roi_months r = PyFloat q
    /\ nth_error (cumulative_savings r) (Z.to_nat (12 - 1)) = Some c
    /\ (inject_Z (implementation_cost r) <= c <-> q <= inject_Z 12).
Proof. apply (chart_reaches_break_even 50 15000 65 12); lia. Defined.

(** X5.  At or above the cap (efficiency 85 or more) with a positive
    cost, no bar of the chart is positive, so none reaches the break-even
    line, and the ROI metric nevertheless reads ["0.0 months"]. *)
Theorem no_break_even_at_or_above_cap (x y e : Z) :
  (0 < y)%Z -> (85 <= e)%Z ->
  exists r : ROIResult,
    estimate x y e = Ok r
    /\ Forall (fun c => c <= 0 /\ c < inject_Z (implementation_cost r))
              (cumulative_savings r)
    /\ shown_roi_timeline r = "0.0 months"%string.
Proof.
  intros Hy He. estimate_at x y e r.
  assert (Hle : savings_of y e <= 0).
  { rewrite <- (savings_of_cap y). apply savings_of_antitone; lia. }
  exists r. split; [exact Hrun|]. split.
  - rewrite Hcum, Hmonths, Hms, Hic.
    change (Py.range 1 13) with [1; 2; 3; 4; 5; 6; 7; 8; 9; 10; 11; 12]%Z.
    cbn [map]. set (s := savings_of y e) in *.
    repeat (constructor; [cbv [inject_Z]; split; nra|]). constructor.
  - rewrite Hshown, Hroi, (roi_of_nonpositive _ _ Hle). reflexivity.
Qed.

Lemma no_break_even_at_or_above_cap_witness :
  exists r : ROIResult,
    estimate 50 15000 90 = Ok r
    /\ Forall (fun c => c <= 0 /\ c < inject_Z (implementation_cost r))
              (cumulative_savings r)
    /\ shown_roi_timeline r = "0.0 months"%string.
Proof. apply (no_break_even_at_or_above_cap 50 15000 90); lia. Defined.

(** X6.  Below the cap the dependence on efficiency is strict: a higher
    efficiency gives strictly smaller monthly savings and a strictly longer
    pay-back time. *)
Theorem savings_strict_and_payback (x y e1 e2 : Z) :
  (0 < y)%Z -> (e1 < e2)%Z -> (e2 < 85)%Z ->
  exists (r1 r2 : ROIResult) (q1 q2 : Q),
    estimate x y e1 = Ok r1
    /\ estimate x y e2 = Ok r2
    /\ monthly_savings r2 < monthly_savings r1
    /\ roi_months r1 = PyFloat q1
    /\ roi_months r2 = PyFloat q2
    /\ q1 < q2.
Proof.
  intros Hy H12 H2.
  estimate_at x y e1 r1. estimate_at x y e2 r2.
  pose proof (savings_of_positive y e1 Hy ltac:(lia)) as Hp1.
  pose proof (savings_of_positive y e2 Hy H2) as Hp2.
  pose proof (savings_of_strict y e1 e2 Hy H12) as Hlt.
  exists r1, r2, (inject_Z 25000 / savings_of y e1),
    (inject_Z 25000 / savings_of y e2).
  split; [assumption|]. split; [assumption|].
  split; [now rewrite Hms, Hms0|].
  split; [rewrite Hroi; now apply roi_of_positive|].
  split; [rewrite Hroi0; now apply roi_of_positive|].
  unfold Qdiv. apply Qmult_lt_l; [reflexivity|].
  apply -> Qinv_lt_contravar; assumption.
Qed.

Lemma savings_strict_and_payback_witness :
  exists (r1 r2 : ROIResult) (q1 q2 : Q),
    estimate 50 15000 40 = Ok r1
    /\ estimate 50 15000 65 = Ok r2
    /\ monthly_savings r2 < monthly_savings r1
    /\ roi_months r1 = PyFloat q1
    /\ roi_months r2 = PyFloat q2
    /\ q1 < q2.
Proof. apply (savings_strict_and_payback 50 15000 40 65); lia. Defined.

Lemma estimate_labels (x y e : Z) :
  exists r : ROIResult,
    estimate x y e = Ok r
    /\ shown_target_delta r = ("+" ++ Format.str_int (85 - e) ++ "%")%string
    /\ shown_monthly_savings r
       = ("$" ++ Format.format_f true 2 (savings_of y e))%string
    /\ shown_annual_savings r
       = ("$" ++ Format.format_f true 2 (savings_of y e * 12))%string.
Proof.
  unfold estimate.
  rewrite (truediv_nonzero _ 85) by reflexivity. rewrite bind_ok.
  rewrite (truediv_nonzero _ 100) by reflexivity. rewrite bind_ok.
  rewrite (truediv_nonzero _ 21) by reflexivity.
  fold (potential_of e). fold (savings_of y e).
  destruct (Py.gt (savings_of y e) 0) eqn:G.
  - apply gt_true_iff in G. rewrite (truediv_positive _ _ G).
    cbn [bind ret Format.format_value].
    eexists; split; [reflexivity|]. repeat split; reflexivity.
  - cbn [bind ret Format.format_value].
    eexists; split; [reflexivity|]. repeat split; reflexivity.
Qed.

(** X8.  Above the cap the delta of the "Target Efficiency" metric is
    built as "+" followed by a negative number: it reads ["+-N%"] with
    N = efficiency - 85. *)
Theorem target_delta_above_cap (x y e : Z) :
  (85 < e <= 90)%Z ->
  exists r : ROIResult,
    estimate x y e = Ok r
    /\ shown_target_delta r
       = ("+-" ++ Format.str_int (e - 85) ++ "%")%string.
Proof.
  intros He.
  destruct (estimate_labels x y e) as (r & Hrun & Hdelta & _).
  exists r. split; [exact Hrun|]. rewrite Hdelta.
  assert (Hcases : (e = 86 \/ e = 87 \/ e = 88 \/ e = 89 \/ e = 90)%Z) by lia.
  repeat (destruct Hcases as [-> | Hcases]; [reflexivity|]).
  subst e. reflexivity.
Qed.

Lemma target_delta_above_cap_witness :
  exists r : ROIResult,
    estimate 50 15000 90 = Ok r
    /\ shown_target_delta r
       = ("+-" ++ Format.str_int (90 - 85) ++ "%")%string.
Proof. apply (target_delta_above_cap 50 15000 90); lia. Defined.

(** ** Rounded arithmetic *)

Module RoundingFacts.

Import Rounding.

Lemma round_half_even_error (q : Q) :
  Qabs (inject_Z (Format.round_half_even q) - q) <= 1 # 2.
Proof.
  destruct q as [n d]. unfold Format.round_half_even. cbn [Qnum Qden].
  pose proof (Z.div_mod n (Zpos d) ltac:(lia)) as Hdm.
  pose proof (Z.mod_pos_bound n (Zpos d) ltac:(lia)) as Hr.
  set (f := (n / Zpos d)%Z) in *. set (r := (n mod Zpos d)%Z) in *.
  apply Qabs_Qle_condition.
  destruct (2 * r ?= Zpos d)%Z eqn:C;
    [apply Z.compare_eq in C | rewrite Z.compare_lt_iff in C
     | rewrite Z.compare_gt_iff in C];
    try destruct (Z.even f);
    unfold Qle, Qminus, Qplus, Qopp, inject_Z; cbn [Qnum Qden];
    rewrite ?Pos2Z.inj_mul; split; nia.
Qed.

Lemma two_power_Z (n : Z) : (0 <= n)%Z -> 2 ^ n == inject_Z (2 ^ n).
Proof. intros Hn. now rewrite Zpower_Qpower. Qed.

Lemma two_power_pos (s : Z) : 0 < 2 ^ s.
Proof. apply Qpower_0_lt. reflexivity. Qed.

(** Half of what [scale_of] needs: the first guess is at most one short. *)
Lemma first_scale (n : Z) (d : positive) :
  n <> 0%Z ->
  inject_Z (2 ^ 51)
  <= Qabs (n # d)
     * 2 ^ (52 - (Z.log2 (Z.abs n) - Z.log2 (Zpos d))).
Proof.
  intros Hn.
  set (a := Z.log2 (Z.abs n)). set (b := Z.log2 (Zpos d)).
  assert (Ha : (0 <= a)%Z) by apply Z.log2_nonneg.
  assert (Hb : (0 <= b)%Z) by apply Z.log2_nonneg.
  destruct (Z.log2_spec (Z.abs n) ltac:(lia)) as [HA _]. fold a in HA.
  destruct (Z.log2_spec (Zpos d) ltac:(lia)) as [_ HB]. fold b in HB.
  rewrite Z.pow_succ_r in HB by exact Hb.
  replace (52 - (a - b))%Z with (52 + b - a)%Z by lia.
  rewrite Qpower_minus, Qpower_plus by discriminate.
  rewrite (two_power_Z 52), (two_power_Z a), (two_power_Z b) by lia.
  assert (HPa : (0 < 2 ^ a)%Z) by (apply Z.pow_pos_nonneg; lia).
  assert (HPb : (0 < 2 ^ b)%Z) by (apply Z.pow_pos_nonneg; lia).
  change (Qabs (n # d)) with (Z.abs n # d).
  rewrite (Qmake_Qdiv (Z.abs n) d).
  set (A := (2 ^ a)%Z) in *. set (B := (2 ^ b)%Z) in *.
  assert (HQA : 0 < inject_Z A).
  { change 0 with (inject_Z 0). now rewrite <- Zlt_Qlt. }
  assert (HQd : 0 < inject_Z (Zpos d)) by reflexivity.
  setoid_replace (inject_Z (Z.abs n) / inject_Z (Z.pos d)
                  * (inject_Z (2 ^ 52) * inject_Z B / inject_Z A))
    with (inject_Z (Z.abs n) * (inject_Z (2 ^ 52) * inject_Z B)
          / (inject_Z (Zpos d) * inject_Z A)).
  2:{ field. split; intros H0.
      - rewrite H0 in HQA. discriminate HQA.
      - discriminate H0. }
  apply Qle_shift_div_l.
  - rewrite <- (Qmult_0_l (inject_Z A)). apply Qmult_lt_compat_r; assumption.
  - rewrite <- !inject_Z_mult, <- Zle_Qle.
    change (2 ^ 52)%Z with (2 * 2 ^ 51)%Z. nia.
Qed.

Lemma scale_of_spec (q : Q) :
  ~ q == 0 -> inject_Z (2 ^ 52) <= Qabs q * 2 ^ scale_of q.
Proof.
  intros Hq. unfold scale_of.
  set (s0 := (52 - (Z.log2 (Z.abs (Qnum q)) - Z.log2 (Zpos (Qden q))))%Z).
  destruct (Qle_bool (inject_Z (2 ^ 52)) (Qabs q * 2 ^ s0)) eqn:T.
  - now apply Qle_bool_iff.
  - rewrite Qpower_plus by discriminate.
    assert (Hn : Qnum q <> 0%Z).
    { intros H0. apply Hq. destruct q as [n d]. cbn in H0. subst n.
      reflexivity. }
    pose proof (first_scale (Qnum q) (Qden q) Hn) as H.
    destruct q as [n d]. cbn [Qnum Qden] in *. fold s0 in H.
    change (2 ^ 1) with 2.
    change (inject_Z (2 ^ 52)) with (inject_Z (2 ^ 51) * 2).
    rewrite Qmult_assoc. apply Qmult_le_compat_r; [exact H | discriminate].
Qed.

(** [round64] has relative error at most the unit roundoff. *)
Theorem round64_relative_error (q : Q) :
  Qabs (round64 q - q) <= u * Qabs q.
Proof.
  unfold round64. destruct (Qeq_bool q 0) eqn:Z0.
  - apply Qeq_bool_iff in Z0. rewrite Z0. discriminate.
  - apply Qeq_bool_neq in Z0. rewrite Qred_correct.
    set (s := scale_of q). pose proof (scale_of_spec q Z0) as Hs. fold s in Hs.
    pose proof (two_power_pos s) as HP.
    pose proof (round_half_even_error (q * 2 ^ s)) as He.
    set (r := inject_Z (Format.round_half_even (q * 2 ^ s))) in *.
    set (P := 2 ^ s) in *.
    assert (HPn : ~ P == 0) by (intros H0; rewrite H0 in HP; discriminate HP).
    setoid_replace (r / P - q) with ((r - q * P) / P) by (field; exact HPn).
    unfold Qdiv. rewrite Qabs_Qmult, Qabs_Qinv, (Qabs_pos P) by lra.
    apply Qle_shift_div_r; [exact HP|].
    assert (Hu : (1 # 2) <= u * Qabs q * P).
    { unfold u. rewrite <- Qmult_assoc.
      setoid_replace (1 # 2) with ((1 # 2 ^ 53) * inject_Z (2 ^ 52))
        by reflexivity.
      apply Qmult_le_l; [reflexivity | exact Hs]. }
    lra.
Qed.

(** With exact arithmetic for [rnd] this is the estimator above. *)
Lemma estimate_with_exact (x y e : Z) :
  estimate_with (fun q => q) x y e = estimate x y e.
Proof. reflexivity. Qed.

(** No rounding makes the block raise, and what it returns. *)
Lemma estimate_with_fields (rnd : Q -> Q) (x y e : Z) :
  exists r : ROIResult,
    estimate_with rnd x y e = Ok r
    /\ optimization_potential r = potential_with rnd e
    /\ monthly_savings r = savings_with rnd y e
    /\ annual_savings r = rnd (monthly_savings r * 12)
    /\ implementation_cost r = 25000%Z
    /\ roi_months r
       = (if Py.gt (monthly_savings r) 0
          then PyFloat (rnd (inject_Z 25000 / monthly_savings r))
          else PyInt 0)
    /\ cumulative_savings r
       = map (fun i => rnd (monthly_savings r * inject_Z i)) (Py.range 1 13)
    /\ energy_saved r = rnd (annual_savings r * rnd 0.8)
    /\ carbon_reduced r = rnd (energy_saved r * rnd 0.4)
    /\ trees_equivalent r = rnd (carbon_reduced r / 21).
Proof.
  unfold estimate_with.
  rewrite (truediv_nonzero _ 85) by reflexivity. rewrite bind_ok.
  rewrite (truediv_nonzero _ 100) by reflexivity. rewrite bind_ok.
  rewrite (truediv_nonzero _ 21) by reflexivity.
  fold (potential_with rnd e). fold (savings_with rnd y e).
  destruct (Py.gt (savings_with rnd y e) 0) eqn:G.
  - pose proof G as G'. apply gt_true_iff in G'.
    rewrite (truediv_positive _ _ G').
    cbn [bind ret Format.format_value].
    eexists; split; [reflexivity|].
    cbn [optimization_potential monthly_savings annual_savings roi_months
         implementation_cost cumulative_savings energy_saved carbon_reduced
         trees_equivalent].
    rewrite G. repeat split; reflexivity.
  - cbn [bind ret Format.format_value].
    eexists; split; [reflexivity|].
    cbn [optimization_potential monthly_savings annual_savings roi_months
         implementation_cost cumulative_savings energy_saved carbon_reduced
         trees_equivalent].
    rewrite G. repeat split; reflexivity.
Qed.

(** *** Error factors *)

Lemma u_small : 0 < u /\ u < 1.
Proof. split; reflexivity. Qed.

Lemma qpow_low_pos (k : nat) : 0 < qpow (1 - u) k.
Proof.
  induction k as [|k IH]; [reflexivity|]. cbn [qpow].
  apply Qmult_lt_0_compat; [reflexivity | exact IH].
Qed.

Lemma qpow_add (q : Q) (j k : nat) : qpow q (j + k) == qpow q j * qpow q k.
Proof.
  induction j as [|j IH]; cbn [qpow Nat.add]; [ring|]. rewrite IH. ring.
Qed.

Lemma qpow_high_pos (k : nat) : 0 < qpow (1 + u) k.
Proof.
  induction k as [|k IH]; [reflexivity|]. cbn [qpow].
  apply Qmult_lt_0_compat; [reflexivity | exact IH].
Qed.



Lemma near_mul (j k : nat) (x v y w : Q) :
  near j x v -> near k y w -> near (j + k) (x * y) (v * w).
Proof.
  intros (f & Hf & Hfl & Hfh) (g & Hg & Hgl & Hgh).
  exists (f * g). split; [rewrite Hf, Hg; ring|].
  rewrite !qpow_add.
  pose proof (qpow_low_pos j). pose proof (qpow_low_pos k).
  split; nra.
Qed.

Lemma near_scale (k : nat) (x v c : Q) :
  near k x v -> near k (x * c) (v * c).
Proof.
  intros (f & Hf & Hb). exists f. split; [rewrite Hf; ring | exact Hb].
Qed.

Lemma near_div_exact (k : nat) (x v c : Q) :
  near k x v -> near k (x / c) (v / c).
Proof. unfold Qdiv. apply near_scale. Qed.

Section Model.

Variable rnd : Q -> Q.
Hypothesis rnd_model : StandardModel rnd.

Lemma near_round (q : Q) : near 1 (rnd q) q.
Proof.
  pose proof (rnd_model q) as H. cbn [qpow]. unfold near.
  destruct (Qeq_dec q 0) as [Hz | Hnz].
  - exists 1.
    assert (Ha : Qabs q == 0) by (rewrite Hz; reflexivity).
    rewrite Ha, Qmult_0_r in H. apply Qabs_Qle_condition in H.
    cbn [qpow]. split; [lra | split; unfold u; discriminate].
  - exists (rnd q / q). split; [field; exact Hnz|].
    assert (Hrel : Qabs (rnd q / q - 1) <= u).
    { setoid_replace (rnd q / q - 1) with ((rnd q - q) / q)
        by (field; exact Hnz).
      unfold Qdiv. rewrite Qabs_Qmult, Qabs_Qinv.
      apply Qle_shift_div_r; [|exact H].
      pose proof (Qabs_nonneg q) as Hq.
      apply Qle_lteq in Hq. destruct Hq as [Hq | Hq]; [exact Hq|].
      exfalso. apply Hnz.
      assert (Hc : Qabs q <= 0) by (rewrite <- Hq; apply Qle_refl).
      apply Qabs_Qle_condition in Hc. lra. }
    apply Qabs_Qle_condition in Hrel.
    cbn [qpow]. lra.
Qed.

Lemma near_rounded (k : nat) (x v : Q) : near k x v -> near (S k) (rnd x) v.
Proof.
  intros Hx. pose proof (near_round x) as (f & Hf & Hfl & Hfh).
  destruct Hx as (g & Hg & Hgl & Hgh).
  exists (g * f). split; [rewrite Hf, Hg; ring|].
  cbn [qpow] in *. pose proof (qpow_low_pos k) as HL.
  pose proof u_small as [Hu0 Hu1].
  set (L := qpow (1 - u) k) in *. set (H := qpow (1 + u) k) in *.
  split; nra.
Qed.

Lemma near_positive (k : nat) (x v : Q) : near k x v -> 0 < v -> 0 < x.
Proof.
  intros (f & Hf & Hfl & _) Hv. rewrite Hf.
  pose proof (qpow_low_pos k). nra.
Qed.

Lemma potential_near (e : Z) : near 2 (potential_with rnd e) (potential_of e).
Proof.
  unfold potential_with, potential_of.
  apply near_rounded, near_scale, near_round.
Qed.

Lemma savings_near (y e : Z) : near 7 (savings_with rnd y e) (savings_of y e).
Proof.
  unfold savings_with, savings_of.
  apply near_rounded. apply (near_mul 5 1); [|apply near_round].
  apply near_rounded. apply (near_mul 1 3); [apply near_round|].
  apply near_rounded, near_div_exact, potential_near.
Qed.

End Model.

(** Linear envelopes of the error factors. *)
Lemma factor_bounds :
  1 - 2 * u <= qpow (1 - u) 2 /\ qpow (1 + u) 2 <= 1 + (5 # 2) * u
  /\ 1 - 4 * u <= qpow (1 - u) 4 /\ qpow (1 + u) 4 <= 1 + (9 # 2) * u
  /\ 1 - 7 * u <= qpow (1 - u) 7 /\ qpow (1 + u) 7 <= 1 + (15 # 2) * u.
Proof. repeat split; vm_compute; discriminate. Qed.

Lemma u_tiny : 0 < u /\ u <= 1 # 1000.
Proof. split; vm_compute; [reflexivity | discriminate]. Qed.

Lemma close_to_exact (A f c : Q) :
  1 - c <= f -> f <= 1 + c -> Qabs (A * f - A) <= c * Qabs A.
Proof.
  intros Hl Hh.
  setoid_replace (A * f - A) with (A * (f - 1)) by ring.
  rewrite Qabs_Qmult.
  assert (Hd : Qabs (f - 1) <= c) by (apply Qabs_Qle_condition; lra).
  pose proof (Qabs_nonneg A) as Ha.
  set (a := Qabs A) in *. set (d := Qabs (f - 1)) in *. nra.
Qed.

Lemma close_to_each_other (A f g c : Q) :
  0 < g -> f - g <= c * g -> g - f <= c * g ->
  Qabs (A * f - A * g) <= c * Qabs (A * g).
Proof.
  intros Hg Hl Hh.
  setoid_replace (A * f - A * g) with (A * (f - g)) by ring.
  rewrite !Qabs_Qmult, (Qabs_pos g) by lra.
  assert (Hd : Qabs (f - g) <= c * g) by (apply Qabs_Qle_condition; lra).
  pose proof (Qabs_nonneg A) as Ha.
  set (a := Qabs A) in *. set (d := Qabs (f - g)) in *. nra.
Qed.

(** [round64] is binary64: at the smallest cost, the default cost and the
    largest integer cost the widget can hold, and at every slider position,
    the six figures computed with [round64] are the primitive doubles. *)
Lemma binary64_agreement :
  forallb (fun y => forallb (agrees_with_binary64 y) (Py.range 30 91))
          [100; 15000; 9007199254740991]%Z
  = true.
Proof. vm_compute. reflexivity. Qed.



(** X1.  Below the cap (efficiency under 85) with a positive cost, the
    guard passes and [roi_months] is a positive float that is the break-even
    time up to rounding: roi_months * monthly_savings is within 2^-53 of the
    implementation cost, relatively, and within 3 * 2^-53 when the product
    is itself computed in floating point. *)
Theorem roi_break_even (rnd : Q -> Q) (x y e : Z) :
  StandardModel rnd -> (0 < y)%Z -> (e < 85)%Z ->
  exists (r : ROIResult) (q : Q),
    estimate_with rnd x y e = Ok r
    /\ roi_months r = PyFloat q
    /\ 0 < q
    /\ Qabs (q * monthly_savings r - inject_Z (implementation_cost r))
       <= u * inject_Z (implementation_cost r)
    /\ Qabs (rnd (q * monthly_savings r) - inject_Z (implementation_cost r))
       <= 3 * u * inject_Z (implementation_cost r).
Proof.
  intros Hrnd Hy He.
  destruct (estimate_with_fields rnd x y e)
    as (r & Hrun & _ & Hms & _ & Hic & Hroi & _).
  assert (Hpos : 0 < monthly_savings r).
  { rewrite Hms. apply (near_positive 7 _ (savings_of y e)).
    - now apply savings_near.
    - now apply savings_of_positive. }
  set (ms := monthly_savings r) in *.
  assert (Hne : ~ ms == 0) by (intros H0; rewrite H0 in Hpos; discriminate).
  exists r, (rnd (inject_Z 25000 / ms)). split; [exact Hrun|].
  split. { rewrite Hroi. apply gt_true_iff in Hpos. now rewrite Hpos. }
  pose proof (near_round rnd Hrnd (inject_Z 25000 / ms)) as Hq.
  split.
  - apply (near_positive 1 _ _ Hq).
    apply Qlt_shift_div_l; [exact Hpos|]. rewrite Qmult_0_l. reflexivity.
  - destruct Hq as (f & Hf & Hfl & Hfh). cbn [qpow] in Hfl, Hfh.
    rewrite Hic. fold ms.
    assert (Hprod : rnd (inject_Z 25000 / ms) * ms == inject_Z 25000 * f)
      by (rewrite Hf; field; exact Hne).
    destruct (near_round rnd Hrnd (rnd (inject_Z 25000 / ms) * ms))
      as (g & Hg & Hgl & Hgh).
    cbn [qpow] in Hgl, Hgh. destruct u_tiny as [Hu0 Hu1].
    split.
    + rewrite Hprod.
      change (u * inject_Z 25000) with (u * Qabs (inject_Z 25000)).
      apply close_to_exact; lra.
    + rewrite Hg, Hprod.
      setoid_replace (inject_Z 25000 * f * g)
        with (inject_Z 25000 * (f * g)) by ring.
      change (3 * u * inject_Z 25000)
        with (3 * u * Qabs (inject_Z 25000)).
      apply close_to_exact; nra.
Qed.

Lemma roi_break_even_witness :
  exists (r : ROIResult) (q : Q),
    estimate_with round64 50 15000 65 = Ok r
    /\ roi_months r = PyFloat q
    /\ 0 < q
    /\ Qabs (q * monthly_savings r - inject_Z (implementation_cost r))
       <= u * inject_Z (implementation_cost r)
    /\ Qabs (round64 (q * monthly_savings r)
             - inject_Z (implementation_cost r))
       <= 3 * u * inject_Z (implementation_cost r).
Proof.
  apply (roi_break_even round64 50 15000 65);
    [exact round64_relative_error | lia | lia].
Defined.

Lemma savings_of_range (y e : Z) :
  (0 < y)%Z -> (30 <= e <= 90)%Z ->
  - (3 # 170) * inject_Z y <= savings_of y e
  /\ savings_of y e <= (33 # 170) * inject_Z y.
Proof.
  intros Hy [Hlo Hhi]. rewrite savings_of_linear, inject_Z_mult.
  assert (H1 : inject_Z (-5) <= inject_Z (85 - e)) by (rewrite <- Zle_Qle; lia).
  assert (H2 : inject_Z (85 - e) <= inject_Z 55) by (rewrite <- Zle_Qle; lia).
  assert (H3 : 0 < inject_Z y).
  { change 0 with (inject_Z 0). now rewrite <- Zlt_Qlt. }
  change (inject_Z (-5)) with (-5 # 1) in H1.
  change (inject_Z 55) with (55 # 1) in H2.
  set (a := inject_Z (85 - e)) in *. set (c := inject_Z y) in *.
  split; nra.
Qed.

(** X3.  Over the slider's range 30..90 and for a positive cost, the
    monthly savings computed with rounding are within 8 * 2^-53 of the
    exact value cost * (85 - efficiency) * 3/850, relatively, and hence lie
    between -3/170 and 33/170 of the monthly cost up to that factor. *)
Theorem savings_within_share_of_cost (rnd : Q -> Q) (x y e : Z) :
  StandardModel rnd -> (0 < y)%Z -> (30 <= e <= 90)%Z ->
  exists r : ROIResult,
    estimate_with rnd x y e = Ok r
    /\ Qabs (monthly_savings r
             - inject_Z (y * (85 - e)) * (3 # 850))
       <= 8 * u * Qabs (inject_Z (y * (85 - e)) * (3 # 850))
    /\ - (3 # 170) * (1 + 8 * u) * inject_Z y <= monthly_savings r
    /\ monthly_savings r <= (33 # 170) * (1 + 8 * u) * inject_Z y.
Proof.
  intros Hrnd Hy He.
  destruct (estimate_with_fields rnd x y e) as (r & Hrun & _ & Hms & _).
  exists r. split; [exact Hrun|].
  pose proof (savings_near rnd Hrnd y e) as (f & Hf & Hfl & Hfh).
  rewrite <- Hms in Hf.
  destruct (savings_of_range y e Hy He) as [Slo Shi].
  destruct factor_bounds as (_ & _ & _ & _ & L7 & H7).
  destruct u_tiny as [Hu0 Hu1].
  assert (H3 : 0 < inject_Z y).
  { change 0 with (inject_Z 0). now rewrite <- Zlt_Qlt. }
  rewrite <- savings_of_linear.
  set (S := savings_of y e) in *. set (c := inject_Z y) in *.
  set (ms := monthly_savings r) in *.
  split; [|split].
  - rewrite Hf. apply close_to_exact; lra.
  - rewrite Hf. destruct (Qlt_le_dec S 0); nra.
  - rewrite Hf. destruct (Qlt_le_dec S 0); nra.
Qed.

Lemma savings_within_share_of_cost_witness :
  exists r : ROIResult,
    estimate_with round64 50 845 30 = Ok r
    /\ Qabs (monthly_savings r
             - inject_Z (845 * (85 - 30)) * (3 # 850))
       <= 8 * u * Qabs (inject_Z (845 * (85 - 30)) * (3 # 850))
    /\ - (3 # 170) * (1 + 8 * u) * inject_Z 845 <= monthly_savings r
    /\ monthly_savings r <= (33 # 170) * (1 + 8 * u) * inject_Z 845.
Proof.
  apply (savings_within_share_of_cost round64 50 845 30);
    [exact round64_relative_error | lia | lia].
Defined.

(** X4.  Below the cap and for a positive cost the bars of the cumulative
    chart strictly increase from month to month, rounding included, and the
    twelfth bar is the [annual_savings] shown in the metric. *)
Theorem chart_bars_increase (rnd : Q -> Q) (x y e m : Z) :
  StandardModel rnd -> (0 < y)%Z -> (e < 85)%Z -> (1 <= m <= 11)%Z ->
  exists (r : ROIResult) (c c' last : Q),
    estimate_with rnd x y e = Ok r
    /\ nth_error (cumulative_savings r) (Z.to_nat (m - 1)) = Some c
    /\ nth_error (cumulative_savings r) (Z.to_nat m) = Some c'
    /\ c < c'
    /\ nth_error (cumulative_savings r) 11 = Some last
    /\ last = annual_savings r.
Proof.
  intros Hrnd Hy He Hm.
  destruct (estimate_with_fields rnd x y e)
    as (r & Hrun & _ & Hms & Han & _ & _ & Hcum & _).
  assert (Hpos : 0 < monthly_savings r).
  { rewrite Hms. apply (near_positive 7 _ (savings_of y e)).
    - now apply savings_near.
    - now apply savings_of_positive. }
  set (ms := monthly_savings r) in *.
  exists r, (rnd (ms * inject_Z m)), (rnd (ms * inject_Z (m + 1))),
    (rnd (ms * inject_Z 12)).
  split; [exact Hrun|]. rewrite Hcum.
  split; [apply (range_1_13_nth _ (fun i => rnd (ms * inject_Z i))); lia|].
  split.
  { replace (Z.to_nat m) with (Z.to_nat (m + 1 - 1)) by (f_equal; lia).
    apply (range_1_13_nth _ (fun i => rnd (ms * inject_Z i))). lia. }
  split; [|split; [reflexivity | now rewrite Han]].
  destruct (near_round rnd Hrnd (ms * inject_Z m)) as (f & Hf & Hfl & Hfh).
  destruct (near_round rnd Hrnd (ms * inject_Z (m + 1)))
    as (g & Hg & Hgl & Hgh).
  cbn [qpow] in *. rewrite Hf, Hg, inject_Z_plus.
  assert (H1 : inject_Z 1 <= inject_Z m) by (rewrite <- Zle_Qle; lia).
  assert (H2 : inject_Z m <= inject_Z 11) by (rewrite <- Zle_Qle; lia).
  change (inject_Z 1) with 1 in *. change (inject_Z 11) with (11 # 1) in H2.
  destruct u_tiny as [Hu0 Hu1]. set (M := inject_Z m) in *.
  assert (Hfac : M * f < (M + 1) * g) by nra.
  nra.
Qed.

Lemma chart_bars_increase_witness :
  exists (r : ROIResult) (c c' last : Q),
    estimate_with round64 50 15000 65 = Ok r
    /\ nth_error (cumulative_savings r) (Z.to_nat (3 - 1)) = Some c
    /\ nth_error (cumulative_savings r) (Z.to_nat 3) = Some c'
    /\ c < c'
    /\ nth_error (cumulative_savings r) 11 = Some last
    /\ last = annual_savings r.
Proof.
  apply (chart_bars_increase round64 50 15000 65 3);
    [exact round64_relative_error | lia | lia | lia].
Defined.

(** X7.  Savings are proportional to the monthly cost up to rounding: k
    times the cost gives monthly savings within 16 * 2^-53 of k times the
    monthly savings, relatively. *)
Theorem savings_scale_with_cost (rnd : Q -> Q) (x y e k : Z) :
  StandardModel rnd -> (0 < k)%Z -> (0 < y)%Z ->
  exists r r' : ROIResult,
    estimate_with rnd x y e = Ok r
    /\ estimate_with rnd x (k * y) e = Ok r'
    /\ Qabs (monthly_savings r' - inject_Z k * monthly_savings r)
       <= 16 * u * Qabs (inject_Z k * monthly_savings r).
Proof.
  intros Hrnd Hk Hy.
  destruct (estimate_with_fields rnd x y e) as (r & Hrun & _ & Hms & _).
  destruct (estimate_with_fields rnd x (k * y) e)
    as (r' & Hrun' & _ & Hms' & _).
  exists r, r'. split; [exact Hrun|]. split; [exact Hrun'|].
  pose proof (savings_near rnd Hrnd y e) as (g & Hg & Hgl & Hgh).
  pose proof (savings_near rnd Hrnd (k * y) e) as (f & Hf & Hfl & Hfh).
  rewrite <- Hms in Hg. rewrite <- Hms' in Hf.
  assert (Hscale : savings_of (k * y) e == inject_Z k * savings_of y e).
  { rewrite !savings_of_linear, <- Z.mul_assoc, (inject_Z_mult k). ring. }
  destruct factor_bounds as (_ & _ & _ & _ & L7 & H7).
  destruct u_tiny as [Hu0 Hu1].
  setoid_replace (monthly_savings r')
    with (inject_Z k * savings_of y e * f) by (rewrite Hf, Hscale; ring).
  setoid_replace (inject_Z k * monthly_savings r)
    with (inject_Z k * savings_of y e * g) by (rewrite Hg; ring).
  apply close_to_each_other; nra.
Qed.

Lemma savings_scale_with_cost_witness :
  exists r r' : ROIResult,
    estimate_with round64 50 15000 65 = Ok r
    /\ estimate_with round64 50 (3 * 15000) 65 = Ok r'
    /\ Qabs (monthly_savings r' - inject_Z 3 * monthly_savings r)
       <= 16 * u * Qabs (inject_Z 3 * monthly_savings r).
Proof.
  apply (savings_scale_with_cost round64 50 15000 65 3);
    [exact round64_relative_error | lia | lia].
Defined.

End RoundingFacts.

(** ** Properties of the data frame and of the key metrics *)

Module DashboardFacts.

Import Calendar Telemetry TelemetryFacts Dashboard.
Import Lra.
Local Open Scope R_scope.

Section Frame.

Variable deviate : nat -> R.

Lemma rows_from_seq (f : nat -> Timestamp) (n : nat) :
  forall a k : nat,
    rows_from deviate (combine (seq a n) (map f (seq a n))) k
    = map (fun i => fst (row deviate i (f i) (k + 8 * (i - a))%nat)) (seq a n).
Proof.
  induction n as [|n IH]; intros a k; [reflexivity|].
  cbn [seq map combine rows_from]. f_equal.
  - replace (k + 8 * (a - a))%nat with k by lia. reflexivity.
  - rewrite IH. apply map_ext_in. intros i Hi. apply in_seq in Hi.
    do 2 f_equal. lia.
Qed.

(** The data frame, row by row. *)
Lemma generate_rows :
  generate_resource_data deviate
  = map (fun i => fst (row deviate i (hour_at i) (8 * i)%nat)) (seq 0 168).
Proof.
  rewrite generate_unfold.
  change (enumerate hours) with (combine (seq 0 168) (map hour_at (seq 0 168))).
  rewrite (rows_from_seq hour_at 168 0 0).
  apply map_ext. intros i. do 2 f_equal. lia.
Qed.

Lemma generate_nth (i : nat) :
  (i < 168)%nat ->
  nth_error (generate_resource_data deviate) i
  = Some (fst (row deviate i (hour_at i) (8 * i)%nat)).
Proof.
  intros Hi. rewrite generate_rows.
  rewrite nth_error_map, nth_error_seq.
  destruct (Nat.ltb_spec i 168); [reflexivity | lia].
Qed.

(** Every field of the row of one iteration, in terms of the eight
    deviates it draws. *)
Lemma row_closed (i : nat) (hour : Timestamp) (k : nat) :
  fst (row deviate i hour k)
  = let base_gpu := py_max 0 (30 + 40 * wave i + (0 + deviate k * 10)) in
    {| timestamp := hour;
       cpu_usage := py_min 95 (45 + 20 * wave i + (0 + deviate (k + 4) * 5));
       memory_usage :=
         py_min 95 (60 + 15 * wave i + (0 + deviate (k + 5) * 5));
       gpu_usage := py_min 95 base_gpu;
       cpu_waste := py_max 0 (15 + deviate (k + 1) * 5);
       memory_waste := py_max 0 (10 + deviate (k + 2) * 5);
       gpu_waste := py_max 0 (20 + deviate (k + 3) * 8);
       energy_cost :=
         (45 + 20 * wave i + (60 + 15 * wave i) + base_gpu) * 0.12
         + (0 + deviate (k + 6) * 2);
       carbon_footprint :=
         (45 + 20 * wave i + (60 + 15 * wave i) + base_gpu) * 0.05
         + (0 + deviate (k + 7) * 1) |}.
Proof.
  unfold row, draw, gauss, pure, wave. cbn.
  replace (S k) with (k + 1)%nat by lia.
  replace (S (k + 1)) with (k + 2)%nat by lia.
  replace (S (k + 2)) with (k + 3)%nat by lia.
  replace (S (k + 3)) with (k + 4)%nat by lia.
  replace (S (k + 4)) with (k + 5)%nat by lia.
  replace (S (k + 5)) with (k + 6)%nat by lia.
  replace (S (k + 6)) with (k + 7)%nat by lia.
  reflexivity.
Qed.

Lemma generate_length : List.length (generate_resource_data deviate) = 168%nat.
Proof. rewrite generate_rows, length_map, length_seq. reflexivity. Qed.

End Frame.

Lemma row_ext (d1 d2 : nat -> R) (i : nat) (hour : Timestamp) (k1 k2 : nat) :
  (forall j, (j < 8)%nat -> d1 (k1 + j)%nat = d2 (k2 + j)%nat) ->
  fst (row d1 i hour k1) = fst (row d2 i hour k2).
Proof.
  intros H. rewrite !row_closed. cbv zeta.
  pose proof (H 0%nat ltac:(lia)) as H0. rewrite !Nat.add_0_r in H0.
  rewrite H0, (H 1%nat), (H 2%nat), (H 3%nat), (H 4%nat), (H 5%nat),
    (H 6%nat), (H 7%nat) by lia.
  reflexivity.
Qed.

(** X10.  Row i of the data frame depends on the eight draws made in its
    own iteration (draws 8i .. 8i+7) and on nothing else: two runs whose
    random modules agree on those draws produce the same row i. *)
Theorem row_reads_its_own_draws (d1 d2 : nat -> R) (i : nat) :
  (forall j, (j < 8)%nat -> d1 (8 * i + j)%nat = d2 (8 * i + j)%nat) ->
  nth_error (generate_resource_data d1) i
  = nth_error (generate_resource_data d2) i.
Proof.
  intros H. destruct (Nat.lt_ge_cases i 168) as [Hi | Hi].
  - rewrite !generate_nth by exact Hi. f_equal. now apply row_ext.
  - transitivity (@None TelemetrySample);
      [|symmetry]; apply nth_error_None; now rewrite generate_length.
Qed.

Lemma row_reads_its_own_draws_witness :
  nth_error (generate_resource_data spike) 3
  = nth_error (generate_resource_data (fun _ => 0)) 3.
Proof.
  apply (row_reads_its_own_draws spike (fun _ => 0) 3).
  intros j Hj. unfold spike.
  destruct (Nat.eqb_spec (8 * 3 + j) 148) as [E | _]; [lia | reflexivity].
Defined.

(** *** Series *)

Lemma Forall_skipn {A : Type} (P : A -> Prop) (l : list A) :
  Forall P l -> forall n, Forall P (skipn n l).
Proof.
  induction 1 as [|a l Ha Hl IH]; intros [|n]; cbn [skipn];
    try constructor; auto.
Qed.

Lemma iloc_last_map {A B : Type} (f : A -> B) (n : nat) (l : list A) :
  iloc_last n (map f l) = map f (iloc_last n l).
Proof. unfold iloc_last. now rewrite length_map, skipn_map. Qed.

Lemma iloc_last_length {A : Type} (n : nat) (l : list A) :
  List.length (iloc_last n l) = Nat.min n (List.length l).
Proof. unfold iloc_last. rewrite length_skipn. lia. Qed.

Lemma series_sum_nonneg (s : list R) :
  Forall (fun v => 0 <= v) s -> 0 <= series_sum s.
Proof. unfold series_sum. induction 1; simpl; lra. Qed.

Lemma series_sum_at_most (c : R) (s : list R) :
  Forall (fun v => v <= c) s -> series_sum s <= c * INR (List.length s).
Proof.
  induction 1 as [|v l Hv Hl IH]; [cbn; lra|].
  change (series_sum (v :: l)) with (v + series_sum l).
  change (List.length (v :: l)) with (S (List.length l)).
  rewrite S_INR. lra.
Qed.

Lemma series_add_nonneg (a b : list R) :
  Forall (fun v => 0 <= v) a -> Forall (fun v => 0 <= v) b ->
  Forall (fun v => 0 <= v) (series_add a b).
Proof.
  intros Ha. revert b. induction Ha as [|x a Hx Ha IH]; intros b Hb.
  - constructor.
  - destruct Hb as [|y b Hy Hb]; [constructor|].
    cbn [series_add combine map fst snd]. constructor; [lra|].
    now apply IH.
Qed.

Section Metrics.

Variable deviate : nat -> R.

Lemma last_rows (n : nat) :
  (n <= 168)%nat ->
  iloc_last n (generate_resource_data deviate)
  = map (fun i => fst (row deviate i (hour_at i) (8 * i)%nat))
        (seq (168 - n) n).
Proof.
  intros Hn. unfold iloc_last. rewrite generate_length, generate_rows.
  rewrite skipn_map, skipn_seq. do 2 f_equal. lia.
Qed.

Lemma generate_Forall (P : TelemetrySample -> Prop) :
  (forall i hour k, P (fst (row deviate i hour k))) ->
  Forall P (generate_resource_data deviate).
Proof. intros H. rewrite generate_unfold. now apply rows_from_Forall. Qed.

(** The usage columns row by row (supports C1): the upper bounds hold, and
    so does gpu_usage's lower bound; memory_usage and cpu_usage are at least
    0 when the row's own noise draw is at least -9, respectively -5,
    standard deviations. *)
Lemma usage_bounds_row (i : nat) (s : TelemetrySample) :
  nth_error (generate_resource_data deviate) i = Some s ->
  cpu_usage s <= 95 /\ memory_usage s <= 95 /\ 0 <= gpu_usage s <= 95
  /\ (-9 <= deviate (8 * i + 5)%nat -> 0 <= memory_usage s)
  /\ (-5 <= deviate (8 * i + 4)%nat -> 0 <= cpu_usage s).
Proof.
  intros Hs.
  assert (Hi : (i < 168)%nat).
  { rewrite <- (generate_length deviate). apply nth_error_Some. congruence. }
  assert (Es : s = fst (row deviate i (hour_at i) (8 * i)%nat)).
  { rewrite (generate_nth deviate i Hi) in Hs. congruence. }
  rewrite Es, row_closed. cbv zeta.
  cbn [cpu_usage memory_usage gpu_usage].
  pose proof (wave_bound i) as Hw. fold (wave i) in Hw.
  repeat split; try apply py_min_le_l.
  - apply py_min_ge; [lra | apply py_max_ge_l].
  - intros Hz. apply py_min_ge; lra.
  - intros Hz. apply py_min_ge; lra.
Qed.

(** On a run of the real generator, whose deviates stay within nine
    standard deviations, the claim of C1 holds for memory_usage and
    gpu_usage and the upper bound for cpu_usage: only cpu_usage's lower
    bound is at risk. *)
Lemma usage_bounds_real_draws :
  (forall k, -9 <= deviate k <= 9) ->
  Forall (fun s => cpu_usage s <= 95 /\ 0 <= memory_usage s <= 95
                   /\ 0 <= gpu_usage s <= 95)
         (generate_resource_data deviate).
Proof.
  intros Hdev. apply Forall_forall. intros s Hs.
  apply In_nth_error in Hs. destruct Hs as (i & Hs).
  destruct (usage_bounds_row i s Hs) as (Hc & Hm & Hg & Hml & _).
  specialize (Hml (proj1 (Hdev _))). tauto.
Qed.

(** X9.  The three waste columns are never negative, whatever the random
    draws are, and so the "Resource Waste" metric (the sum of the three
    columns over the last 24 rows) is never negative. *)
Theorem waste_never_negative :
  Forall (fun s => 0 <= cpu_waste s /\ 0 <= memory_waste s
                   /\ 0 <= gpu_waste s)
         (generate_resource_data deviate)
  /\ 0 <= total_waste (key_metrics (generate_resource_data deviate)).
Proof.
  assert (H : Forall (fun s => 0 <= cpu_waste s /\ 0 <= memory_waste s
                               /\ 0 <= gpu_waste s)
                     (generate_resource_data deviate)).
  { apply generate_Forall. intros i hour k. rewrite row_closed. cbv zeta.
    cbn [cpu_waste memory_waste gpu_waste].
    repeat split; apply py_max_ge_l. }
  split; [exact H|].
  cbn [key_metrics total_waste]. rewrite !iloc_last_map.
  apply series_sum_nonneg.
  assert (Hlast := Forall_skipn _ _ H
                     (List.length (generate_resource_data deviate) - 24)).
  fold (iloc_last 24 (generate_resource_data deviate)) in Hlast.
  repeat apply series_add_nonneg; apply Forall_map;
    (eapply Forall_impl; [|exact Hlast]); cbv beta; intros s Hs; tauto.
Qed.

(** X14.  [iloc[-24:]] selects exactly the 24 hourly rows of 2025-01-07,
    the last day of the frame, and [iloc[-72:]] the 72 rows from midnight of
    2025-01-05 on. *)
Theorem last_day_and_last_three_days :
  List.length (iloc_last 24 (generate_resource_data deviate)) = 24%nat
  /\ map timestamp (iloc_last 24 (generate_resource_data deviate))
     = date_range (Timestamp_of_date 2025 1 7) 24 ns_per_hour
  /\ List.length (energy_trend_rows (generate_resource_data deviate))
     = 72%nat
  /\ map timestamp (energy_trend_rows (generate_resource_data deviate))
     = date_range (Timestamp_of_date 2025 1 5) 72 ns_per_hour.
Proof.
  unfold energy_trend_rows.
  rewrite !iloc_last_length, generate_length.
  rewrite !last_rows by lia. rewrite !map_map.
  split; [reflexivity|]. split; [|split; [reflexivity|]].
  - change (map (fun i => timestamp
                   (fst (row deviate i (hour_at i) (8 * i)%nat)))
                (seq (168 - 24) 24))
      with (map hour_at (seq 144 24)).
    vm_compute. reflexivity.
  - change (map (fun i => timestamp
                   (fst (row deviate i (hour_at i) (8 * i)%nat)))
                (seq (168 - 72) 72))
      with (map hour_at (seq 96 72)).
    vm_compute. reflexivity.
Qed.

Lemma last_day_cpu :
  iloc_last 24 (map cpu_usage (generate_resource_data deviate))
  = map (fun i => py_min 95 (45 + 20 * wave i
                             + (0 + deviate (8 * i + 4)%nat * 5)))
        (seq 144 24).
Proof.
  rewrite iloc_last_map, last_rows by lia. rewrite map_map.
  change (168 - 24)%nat with 144%nat.
  apply map_ext. intros i. now rewrite row_closed.
Qed.

(** X15.  The "Avg CPU Usage" metric is always a number (the slice is
    never empty, so the mean is not NaN) and is at most 95. *)
Theorem avg_cpu_at_most_95 :
  exists v : R,
    avg_cpu (key_metrics (generate_resource_data deviate)) = Some v
    /\ v <= 95.
Proof.
  cbn [key_metrics avg_cpu]. rewrite last_day_cpu.
  set (f := fun i : nat => py_min 95 (45 + 20 * wave i
                                      + (0 + deviate (8 * i + 4)%nat * 5))).
  assert (Hsum : series_sum (map f (seq 144 24)) <= 95 * INR 24).
  { rewrite <- (length_seq 24 144) at 2. rewrite <- (length_map f).
    apply series_sum_at_most. apply Forall_map, Forall_forall.
    intros i _. apply py_min_le_l. }
  change (map f (seq 144 24)) with (f 144%nat :: map f (seq 145 23)) at 1.
  cbn [series_mean]. eexists. split; [reflexivity|].
  change (f 144%nat :: map f (seq 145 23)) with (map f (seq 144 24)).
  rewrite length_map, length_seq.
  assert (H24 : INR 24 = 24) by (rewrite INR_IZR_INZ; reflexivity).
  rewrite H24 in *. lra.
Qed.

(** X13.  energy_cost and carbon_footprint have no clamp; as long as no
    draw lies more than 3.5 standard deviations below the mean they are
    non-negative in every row, and so are the "Daily Energy Cost" and
    "Carbon Footprint" metrics. *)
Theorem cost_and_carbon_nonneg :
  (forall k, -3.5 <= deviate k) ->
  Forall (fun s => 0 <= energy_cost s /\ 0 <= carbon_footprint s)
         (generate_resource_data deviate)
  /\ 0 <= current_cost (key_metrics (generate_resource_data deviate))
  /\ 0 <= carbon_today (key_metrics (generate_resource_data deviate)).
Proof.
  intros Hdev.
  assert (H : Forall (fun s => 0 <= energy_cost s /\ 0 <= carbon_footprint s)
                     (generate_resource_data deviate)).
  { apply generate_Forall. intros i hour k. rewrite row_closed. cbv zeta.
    cbn [energy_cost carbon_footprint].
    pose proof (wave_bound i) as Hw. fold (wave i) in Hw.
    pose proof (py_max_ge_l 0 (30 + 40 * wave i + (0 + deviate k * 10)))
      as Hgpu.
    pose proof (Hdev (k + 6)%nat). pose proof (Hdev (k + 7)%nat).
    split; lra. }
  split; [exact H|].
  assert (Hlast := Forall_skipn _ _ H
                     (List.length (generate_resource_data deviate) - 24)).
  fold (iloc_last 24 (generate_resource_data deviate)) in Hlast.
  cbn [key_metrics current_cost carbon_today]. rewrite !iloc_last_map.
  split; apply series_sum_nonneg, Forall_map;
    (eapply Forall_impl; [|exact Hlast]); cbv beta; intros s Hs; tauto.
Qed.

(** X12.  Started with k draws already made, the loop leaves the random
    module at k + 1344 draws (eight per row), and row i is computed from the
    draws k + 8i onwards. *)
Theorem generator_draws (k : nat) :
  snd (for_rows deviate (enumerate hours) [] k) = (k + 1344)%nat
  /\ fst (for_rows deviate (enumerate hours) [] k)
     = map (fun i => fst (row deviate i (hour_at i) (k + 8 * i)%nat))
           (seq 0 168).
Proof.
  rewrite for_rows_spec. cbn [fst snd app]. split.
  - change (List.length (enumerate hours)) with 168%nat. lia.
  - change (enumerate hours)
      with (combine (seq 0 168) (map hour_at (seq 0 168))).
    rewrite (rows_from_seq deviate hour_at 168 0 k).
    apply map_ext. intros i. do 3 f_equal. lia.
Qed.

End Metrics.

Lemma cost_and_carbon_nonneg_witness :
  Forall (fun s => 0 <= energy_cost s /\ 0 <= carbon_footprint s)
         (generate_resource_data (fun _ => 0))
  /\ 0 <= current_cost (key_metrics (generate_resource_data (fun _ => 0)))
  /\ 0 <= carbon_today (key_metrics (generate_resource_data (fun _ => 0))).
Proof. apply (cost_and_carbon_nonneg (fun _ => 0)). intros _. lra. Defined.

End DashboardFacts.

(** ** Properties of the agent tab *)

Module AgentFacts.

Import Telemetry Agent.

Lemma inject_Z_nonzero (n : Z) : n <> 0%Z -> Qeq_bool (inject_Z n) 0 = false.
Proof.
  intros Hn. destruct (Qeq_bool (inject_Z n) 0) eqn:E; [|reflexivity].
  apply Qeq_bool_iff in E. unfold Qeq in E. cbn in E. lia.
Qed.

Lemma inject_Z_pos (n : Z) : (0 < n)%Z -> 0 < inject_Z n.
Proof. intros Hn. now rewrite (Zlt_Qlt 0 n) in Hn. Qed.

Lemma sleep_positive_speed (speed : Z) :
  (0 < speed)%Z ->
  sleep (1 / inject_Z speed) = Ok (Slept (1 / inject_Z speed)).
Proof.
  intros Hs. unfold sleep.
  assert (H : Py.gt 0 (1 / inject_Z speed) = false).
  { apply gt_false_iff. apply Qle_shift_div_l; [now apply inject_Z_pos|].
    rewrite Qmult_0_l. discriminate. }
  now rewrite H.
Qed.

Lemma agent_loop_events (speed n : Z) (rows : list (nat * string)) :
  (0 < speed)%Z -> n <> 0%Z ->
  agent_loop speed n rows = Ok (flat_map (step_events speed n) rows).
Proof.
  intros Hs Hn. induction rows as [|[i decision] rest IH]; [reflexivity|].
  cbn [agent_loop flat_map].
  rewrite (truediv_nonzero _ _ (inject_Z_nonzero n Hn)), bind_ok.
  rewrite (truediv_nonzero _ _ (inject_Z_nonzero speed ltac:(lia))), bind_ok.
  rewrite (sleep_positive_speed speed Hs), bind_ok.
  rewrite IH, bind_ok. reflexivity.
Qed.

Lemma run_agent_events (speed : Z) (decisions : list string) :
  (0 < speed)%Z ->
  run_agent_analysis speed decisions
  = Ok (flat_map (step_events speed (Z.of_nat (List.length decisions)))
                 (enumerate decisions)).
Proof.
  intros Hs. unfold run_agent_analysis.
  destruct decisions as [|d ds]; [reflexivity|].
  apply agent_loop_events; [exact Hs|]. cbn [List.length]. lia.
Qed.

Section Events.

Variables speed n : Z.

Lemma events_length (l : list string) (a : nat) :
  List.length (flat_map (step_events speed n)
                 (combine (seq a (List.length l)) l))
  = (3 * List.length l)%nat.
Proof.
  revert a. induction l as [|d l IH]; intros a; [reflexivity|].
  cbn [List.length seq combine flat_map step_events app].
  rewrite IH. lia.
Qed.

Lemma events_progress (l : list string) (a : nat) :
  progress_values (flat_map (step_events speed n)
                     (combine (seq a (List.length l)) l))
  = map (fun i => inject_Z (Z.of_nat i + 1) / inject_Z n)
        (seq a (List.length l)).
Proof.
  revert a. induction l as [|d l IH]; intros a; [reflexivity|].
  cbn [List.length seq combine flat_map step_events app progress_values
       map fst snd].
  f_equal. exact (IH (S a)).
Qed.


Lemma events_status (l : list string) (a : nat) :
  flat_map (fun ev => match ev with StatusText t => [t] | _ => [] end)
    (flat_map (step_events speed n) (combine (seq a (List.length l)) l))
  = l.
Proof.
  revert a. induction l as [|d l IH]; intros a; [reflexivity|].
  cbn [List.length seq combine flat_map step_events app snd].
  f_equal. exact (IH (S a)).
Qed.

End Events.


Lemma fractions_sorted (n : Z) (len : nat) :
  (0 < n)%Z ->
  forall a, StronglySorted Qlt
    (map (fun i => inject_Z (Z.of_nat i + 1) / inject_Z n) (seq a len)).
Proof.
  intros Hn. induction len as [|len IH]; intros a; cbn [seq map].
  - constructor.
  - constructor; [apply IH|].
    apply Forall_forall. intros t Ht.
    apply in_map_iff in Ht. destruct Ht as (k & <- & Hk).
    apply in_seq in Hk. unfold Qdiv.
    apply Qmult_lt_compat_r.
    + apply Qinv_lt_0_compat. now apply inject_Z_pos.
    + rewrite <- Zlt_Qlt. lia.
Qed.

(** X17.  For a positive simulation speed (the slider offers 1..10) and
    any list of decisions, the empty one included, the analysis loop runs to
    the end without raising, performs three actions per decision and shows
    the decisions as status texts in their order. *)
Theorem agent_analysis_returns (speed : Z) (decisions : list string) :
  (0 < speed)%Z ->
  exists evs : list ui_event,
    run_agent_analysis speed decisions = Ok evs
    /\ List.length evs = (3 * List.length decisions)%nat
    /\ flat_map (fun ev => match ev with StatusText t => [t] | _ => [] end)
                evs = decisions.
Proof.
  intros Hs. eexists. split; [now apply run_agent_events|].
  unfold enumerate. split; [apply events_length | apply events_status].
Qed.

Lemma agent_analysis_returns_witness :
  exists evs : list ui_event,
    run_agent_analysis 5 ai_agent_simulation = Ok evs
    /\ List.length evs = (3 * List.length ai_agent_simulation)%nat
    /\ flat_map (fun ev => match ev with StatusText t => [t] | _ => [] end)
                evs = ai_agent_simulation.
Proof. apply (agent_analysis_returns 5 ai_agent_simulation). lia. Defined.

(** X18.  The slider's lower bound is what keeps the loop from failing:
    with at least one decision, speed 0 raises ZeroDivisionError (in
    [1 / simulation_speed]) and a negative speed down to -2^1000 raises
    ValueError (a negative sleep length). *)
Theorem agent_analysis_faults (speed : Z) (decisions : list string) :
  decisions <> [] -> (- 2 ^ 1000 <= speed <= 0)%Z ->
  run_agent_analysis speed decisions
  = Raise (if (speed =? 0)%Z then ZeroDivisionError else ValueError).
Proof.
  intros Hne [_ Hs]. destruct decisions as [|d ds]; [congruence|].
  unfold run_agent_analysis, enumerate.
  cbn [List.length seq combine agent_loop].
  rewrite truediv_nonzero, bind_ok by (apply inject_Z_nonzero; lia).
  destruct (Z.eqb_spec speed 0) as [-> | Hnz].
  - reflexivity.
  - rewrite truediv_nonzero, bind_ok by (now apply inject_Z_nonzero).
    assert (H : Py.gt 0 (1 / inject_Z speed) = true).
    { apply gt_true_iff. unfold Qdiv. rewrite Qmult_1_l.
      destruct speed as [|p|p]; [lia | lia | reflexivity]. }
    unfold sleep. rewrite H. reflexivity.
Qed.

Lemma agent_analysis_faults_witness :
  run_agent_analysis (-3) ai_agent_simulation
  = Raise (if (-3 =? 0)%Z then ZeroDivisionError else ValueError).
Proof.
  apply (agent_analysis_faults (-3) ai_agent_simulation);
    [discriminate | split; [vm_compute; discriminate | lia]].
Defined.

(** X19.  The progress bar receives (i+1)/len(decisions) in iteration i:
    every value is in (0, 1], the values strictly increase, and the last one
    is 1, so the bar ends full. *)
Theorem progress_bar_fills_up (speed : Z) (decisions : list string) :
  (0 < speed)%Z -> decisions <> [] ->
  exists (evs : list ui_event) (final : Q),
    run_agent_analysis speed decisions = Ok evs
    /\ progress_values evs
       = map (fun i => inject_Z (Z.of_nat i + 1)
                       / inject_Z (Z.of_nat (List.length decisions)))
             (seq 0 (List.length decisions))
    /\ Forall (fun p => 0 < p /\ p <= 1) (progress_values evs)
    /\ StronglySorted Qlt (progress_values evs)
    /\ nth_error (progress_values evs) (List.length decisions - 1)
       = Some final
    /\ final == 1.
Proof.
  intros Hs Hne.
  set (n := List.length decisions).
  assert (Hn : (0 < Z.of_nat n)%Z).
  { subst n. destruct decisions; [congruence | cbn [List.length]; lia]. }
  exists (flat_map (step_events speed (Z.of_nat n)) (enumerate decisions)),
    (inject_Z (Z.of_nat (n - 1) + 1) / inject_Z (Z.of_nat n)).
  split; [now apply run_agent_events|].
  unfold enumerate. rewrite events_progress. fold n.
  split; [reflexivity|]. split; [|split; [|split]].
  - apply Forall_forall. intros p Hp.
    apply in_map_iff in Hp. destruct Hp as (i & <- & Hi).
    apply in_seq in Hi. split.
    + apply Qlt_shift_div_l; [now apply inject_Z_pos|].
      rewrite Qmult_0_l. apply inject_Z_pos. lia.
    + apply Qle_shift_div_r; [now apply inject_Z_pos|].
      rewrite Qmult_1_l, <- Zle_Qle. lia.
  - now apply fractions_sorted.
  - rewrite nth_error_map, nth_error_seq.
    destruct (Nat.ltb_spec (n - 1) n); [reflexivity | lia].
  - replace (Z.of_nat (n - 1) + 1)%Z with (Z.of_nat n) by lia.
    field. intros H0. apply inject_Z_pos in Hn. rewrite H0 in Hn.
    discriminate Hn.
Qed.

Lemma progress_bar_fills_up_witness :
  exists (evs : list ui_event) (final : Q),
    run_agent_analysis 5 ai_agent_simulation = Ok evs
    /\ progress_values evs
       = map (fun i => inject_Z (Z.of_nat i + 1)
                       / inject_Z (Z.of_nat (List.length ai_agent_simulation)))
             (seq 0 (List.length ai_agent_simulation))
    /\ Forall (fun p => 0 < p /\ p <= 1) (progress_values evs)
    /\ StronglySorted Qlt (progress_values evs)
    /\ nth_error (progress_values evs)
                 (List.length ai_agent_simulation - 1)
       = Some final
    /\ final == 1.
Proof.
  apply (progress_bar_fills_up 5 ai_agent_simulation); [lia | discriminate].
Defined.



End AgentFacts.

(** ** Properties of the suggestions tab *)

Module SuggestionsFacts.

Import Telemetry Suggestions.

Lemma str_int_inj (a b : Z) : Format.str_int a = Format.str_int b -> a = b.
Proof.
  unfold Format.str_int. intros H.
  apply DecimalZ.to_int_inj.
  apply (f_equal NilZero.int_of_string) in H.
  assert (Hnn : forall n, Z.to_int n <> Decimal.Pos Decimal.Nil
                          /\ Z.to_int n <> Decimal.Neg Decimal.Nil).
  { intros [|p|p]; cbn; split; try discriminate;
      intros [= E]; now apply (Unsigned.to_uint_nonnil p). }
  rewrite !NilZero.isi in H by apply Hnn.
  congruence.
Qed.

Lemma key_of_inj (b b' : bool) (i i' : nat) :
  key_of b i = key_of b' i' -> b = b' /\ i = i'.
Proof.
  unfold key_of. destruct b, b'; cbn [append]; intros H;
    try discriminate H.
  - injection H as H. apply str_int_inj in H. split; [reflexivity | lia].
  - injection H as H. apply str_int_inj in H. split; [reflexivity | lia].
Qed.

Lemma keys_from (l : list Suggestion) :
  forall (a : nat) (k : string),
    In k (widget_keys (map (fun row => render_suggestion (fst row) (snd row))
                           (combine (seq a (List.length l)) l))) ->
    exists b i, k = key_of b i /\ (a <= i)%nat.
Proof.
  induction l as [|s l IH]; intros a k Hk; [destruct Hk|].
  cbn [List.length seq combine map widget_keys flat_map app fst snd] in Hk.
  destruct Hk as [<- | [<- | Hk]].
  - exists true, a. split; [reflexivity | lia].
  - exists false, a. split; [reflexivity | lia].
  - destruct (IH (S a) k Hk) as (b & i & -> & Hi).
    exists b, i. split; [reflexivity | lia].
Qed.

(** X21.  Whatever the list of suggestions, the keys given to the approve
    and reject buttons of the page are pairwise distinct, so no two widgets
    share a key. *)
Theorem widget_keys_distinct (suggestions : list Suggestion) :
  NoDup (widget_keys (render_suggestions suggestions)).
Proof.
  unfold render_suggestions, enumerate. generalize 0%nat as a.
  induction suggestions as [|s l IH]; intros a; [constructor|].
  cbn [List.length seq combine map widget_keys flat_map app fst snd].
  change (key (approve (render_suggestion a s))) with (key_of true a).
  change (key (reject (render_suggestion a s))) with (key_of false a).
  constructor; [|constructor; [|apply (IH (S a))]].
  - intros [H | H].
    + apply key_of_inj in H. destruct H as [H _]. discriminate H.
    + apply keys_from in H. destruct H as (b & i & H & Hi).
      apply key_of_inj in H. lia.
  - intros H. apply keys_from in H. destruct H as (b & i & H & Hi).
    apply key_of_inj in H. lia.
Qed.

End SuggestionsFacts.

(** ** Properties of a run of the script *)

Module AppFacts.

Import Calendar Telemetry TelemetryFacts Dashboard DashboardFacts Agent
  AgentFacts Suggestions Rounding RoundingFacts App.

Lemma main_runs (rnd : Q -> Q) (w : Widgets) (s : Session) :
  (0 < simulation_speed w)%Z ->
  exists (p : Page) (r : ROIResult),
    main rnd w s = Ok (p, snd (cached_generate s))
    /\ estimate_with rnd (num_servers w) (avg_monthly_cost w)
         (current_efficiency w) = Ok r
    /\ page_roi p = r
    /\ page_frame p = fst (cached_generate s).
Proof.
  intros Hspeed. unfold main.
  destruct (cached_generate s) as [df s'].
  destruct (estimate_with_fields rnd (num_servers w) (avg_monthly_cost w)
              (current_efficiency w)) as (r & Hr & _).
  destruct (start_analysis w).
  - rewrite (run_agent_events _ _ Hspeed). cbn [bind ret]. rewrite Hr.
    cbn [bind ret]. eexists. exists r. repeat split; reflexivity.
  - cbn [bind ret]. rewrite Hr. cbn [bind ret].
    eexists. exists r. repeat split; reflexivity.
Qed.

(** C7.  Two runs of the script whose ROI inputs (server count, monthly
    cost, efficiency) are identical put the same ROI record on the page:
    potential, monthly and annual savings, ROI months, energy saved, carbon
    reduced, trees equivalent, cumulative series and shown strings.  This
    holds whatever the two sessions are (state of the random module, cache
    filled or empty), whatever the other widgets show, and for any rounding
    of the float operations; in particular for a run started in the session
    the previous run left behind. *)
Theorem roi_same_across_runs (rnd : Q -> Q) (w1 w2 : Widgets)
  (s1 s2 : Session) :
  num_servers w1 = num_servers w2 ->
  avg_monthly_cost w1 = avg_monthly_cost w2 ->
  current_efficiency w1 = current_efficiency w2 ->
  (0 < simulation_speed w1)%Z -> (0 < simulation_speed w2)%Z ->
  exists (p1 p2 p3 : Page) (s1' s2' s3' : Session),
    main rnd w1 s1 = Ok (p1, s1')
    /\ main rnd w2 s2 = Ok (p2, s2')
    /\ page_roi p1 = page_roi p2
    /\ main rnd w2 s1' = Ok (p3, s3')
    /\ page_roi p3 = page_roi p1.
Proof.
  intros Hx Hy He Hv1 Hv2.
  destruct (main_runs rnd w1 s1 Hv1) as (p1 & r1 & Hm1 & Hr1 & Hp1 & _).
  destruct (main_runs rnd w2 s2 Hv2) as (p2 & r2 & Hm2 & Hr2 & Hp2 & _).
  destruct (main_runs rnd w2 (snd (cached_generate s1)) Hv2)
    as (p3 & r3 & Hm3 & Hr3 & Hp3 & _).
  rewrite <- Hx, <- Hy, <- He in Hr2, Hr3.
  assert (E12 : r1 = r2) by congruence.
  assert (E13 : r1 = r3) by congruence.
  exists p1, p2, p3. do 3 eexists.
  split; [exact Hm1|]. split; [exact Hm2|].
  split; [congruence|]. split; [exact Hm3 | congruence].
Qed.

Lemma roi_same_across_runs_witness :
  exists (p1 p2 p3 : Page) (s1' s2' s3' : Session),
    main round64 default_widgets (fresh (fun _ => 0%R)) = Ok (p1, s1')
    /\ main round64 default_widgets (fresh spike) = Ok (p2, s2')
    /\ page_roi p1 = page_roi p2
    /\ main round64 default_widgets s1' = Ok (p3, s3')
    /\ page_roi p3 = page_roi p1.
Proof.
  apply (roi_same_across_runs round64 default_widgets default_widgets
           (fresh (fun _ => 0%R)) (fresh spike));
    reflexivity.
Defined.

(** The same two runs do differ elsewhere on the page: the data frame, and
    with it the charts, follows the random module.  Row 18 has cpu_usage 25
    in one session and -5 in the other. *)
Lemma frame_depends_on_session :
  exists (p1 p2 : Page) (s1' s2' : Session),
    main round64 default_widgets (fresh (fun _ => 0%R)) = Ok (p1, s1')
    /\ main round64 default_widgets (fresh spike) = Ok (p2, s2')
    /\ page_frame p1 <> page_frame p2.
Proof.
  destruct (main_runs round64 default_widgets (fresh (fun _ => 0%R))
              ltac:(reflexivity)) as (p1 & _ & Hm1 & _ & _ & Hf1).
  destruct (main_runs round64 default_widgets (fresh spike)
              ltac:(reflexivity)) as (p2 & _ & Hm2 & _ & _ & Hf2).
  exists p1, p2. do 2 eexists.
  split; [exact Hm1|]. split; [exact Hm2|].
  rewrite Hf1, Hf2. unfold cached_generate, fresh. cbn [cached_frame deviates drawn].
  rewrite !for_rows_spec. cbn [fst app].
  rewrite <- !generate_unfold.
  intros Heq.
  assert (H18 : (18 < 168)%nat) by lia.
  pose proof (generate_nth (fun _ => 0%R) 18 H18) as Ha.
  pose proof (generate_nth spike 18 H18) as Hb.
  rewrite Heq, Hb in Ha.
  apply (f_equal (option_map cpu_usage)) in Ha. cbn [option_map] in Ha.
  rewrite !row_closed in Ha. cbv zeta in Ha. cbn [cpu_usage] in Ha.
  injection Ha as Ha.
  assert (Hw : wave 18 = (-1)%R).
  { unfold wave. rewrite <- sin_3PI2. f_equal. simpl INR. Lra.lra. }
  rewrite Hw in Ha. change (spike 148) with (-6)%R in Ha.
  rewrite !py_min_below in Ha by Lra.lra.
  Lra.lra.
Qed.

End AppFacts.
